(** * bialy: forecasting / anomaly-detection backend

    A shallow embedding of [backend/app/services/data_processing.py] and
    [backend/app/services/statsforecast_service.py].

    Modelling conventions.
    - A Python [float] is a [pyfloat]: a finite value carried as an exact
      rational, or one of the three IEEE specials.  Arithmetic on finite
      values is exact (rounding and overflow are not modelled); the specials
      follow the IEEE rules.
    - A pandas [Timestamp] is its integer value, nanoseconds since the epoch;
      a date that parses gives a timestamp (the not-a-time value is outside
      the model).
    - Exceptions are values of [exn]; a function that can raise returns a
      [result].
    - What the services import from pandas, numpy and scipy and use as a black
      box ([pd.to_datetime], [Timestamp.strftime], [scipy.stats.norm.ppf], the
      square root behind [Rolling.std]) is an operation of the class
      [Externals]; [time.time()] is read twice by a request and the two
      readings are explicit arguments. *)

From Stdlib Require Import ZArith QArith Qabs Lqa Lia Ascii.
From stdpp Require Import base option list sorting gmap strings pretty.

Local Open Scope string_scope.
Local Open Scope list_scope.
Local Open Scope nat_scope.

(** ** Python floats *)

Inductive pyfloat : Type :=
  | Fin (q : Q)
  | PInf
  | NInf
  | NaN.

Definition Qltb (a b : Q) : bool :=
  (Qnum a * QDen b <? Qnum b * QDen a)%Z.

Definition Qleb (a b : Q) : bool :=
  (Qnum a * QDen b <=? Qnum b * QDen a)%Z.

(** [x < y], [x > y], [x <= y] and [x == y] on floats: every comparison with
    [nan] is [False]. *)
Definition flt (x y : pyfloat) : bool :=
  match x, y with
  | NaN, _ | _, NaN => false
  | Fin a, Fin b => Qltb a b
  | NInf, NInf => false
  | NInf, _ => true
  | _, NInf => false
  | PInf, _ => false
  | Fin _, PInf => true
  end.

Definition fgt (x y : pyfloat) : bool := flt y x.

Definition fle (x y : pyfloat) : bool :=
  match x, y with
  | NaN, _ | _, NaN => false
  | Fin a, Fin b => Qleb a b
  | NInf, _ => true
  | _, PInf => true
  | _, NInf => false
  | PInf, _ => false
  end.

Definition feq (x y : pyfloat) : bool :=
  match x, y with
  | Fin a, Fin b => Qeq_bool a b
  | PInf, PInf | NInf, NInf => true
  | _, _ => false
  end.

Definition fneg (x : pyfloat) : pyfloat :=
  match x with
  | Fin q => Fin (- q)
  | PInf => NInf
  | NInf => PInf
  | NaN => NaN
  end.

Definition fadd (x y : pyfloat) : pyfloat :=
  match x, y with
  | NaN, _ | _, NaN => NaN
  | Fin a, Fin b => Fin (a + b)
  | PInf, NInf | NInf, PInf => NaN
  | PInf, _ | _, PInf => PInf
  | NInf, _ | _, NInf => NInf
  end.

Definition fsub (x y : pyfloat) : pyfloat := fadd x (fneg y).

(** An infinity of the sign of [s * inf]; [0 * inf] is [nan]. *)
Definition scale_inf (s : Q) (inf : pyfloat) : pyfloat :=
  match (s ?= 0)%Q with
  | Eq => NaN
  | Gt => inf
  | Lt => fneg inf
  end.

Definition fmul (x y : pyfloat) : pyfloat :=
  match x, y with
  | NaN, _ | _, NaN => NaN
  | Fin a, Fin b => Fin (a * b)
  | Fin a, inf => scale_inf a inf
  | inf, Fin b => scale_inf b inf
  | PInf, PInf | NInf, NInf => PInf
  | PInf, NInf | NInf, PInf => NInf
  end.

(** Division with numpy's float64 rules on a zero divisor ([x / 0] is an
    infinity of the sign of [x], [0 / 0] is [nan]). *)
Definition fdiv (x y : pyfloat) : pyfloat :=
  match x, y with
  | NaN, _ | _, NaN => NaN
  | Fin a, Fin b =>
      if Qeq_bool b 0 then scale_inf a PInf else Fin (a / b)
  | Fin _, _ => Fin 0
  | inf, Fin b => if Qltb b 0 then fneg inf else inf
  | _, _ => NaN
  end.

Definition fabs (x : pyfloat) : pyfloat :=
  match x with
  | Fin q => Fin (Qabs q)
  | PInf | NInf => PInf
  | NaN => NaN
  end.

(** [math.isnan], [math.isinf], [pd.isna]. *)
Definition isnan (x : pyfloat) : bool :=
  match x with NaN => true | _ => false end.

Definition isinf (x : pyfloat) : bool :=
  match x with PInf | NInf => true | _ => false end.

(** [float(n)] and [a / b] for Python ints. *)
Definition float_of_Z (n : Z) : pyfloat := Fin (inject_Z n).

Definition int_truediv (a b : Z) : pyfloat :=
  fdiv (float_of_Z a) (float_of_Z b).

(** ** Exceptions *)

Inductive exn : Type :=
  | ValueError (msg : string)
  | KeyError (key : string)
  | LibraryError (msg : string).

Inductive result (A : Type) : Type :=
  | Ok (a : A)
  | Raise (e : exn).
Arguments Ok {A} a.
Arguments Raise {A} e.

#[global] Instance result_ret : MRet result := @Ok.
#[global] Instance result_bind : MBind result := λ A B f r,
  match r with
  | Ok a => f a
  | Raise e => Raise e
  end.

(** ** The libraries behind the services *)

Definition Timestamp : Type := Z.

Class Externals := {
  (** [pd.to_datetime] on a [str]: the timestamp, or the text of the
      exception it raises. *)
  to_datetime : string → string + Timestamp;
  (** [Timestamp.strftime('%Y-%m-%d')]. *)
  strftime_ymd : Timestamp → string;
  (** [scipy.stats.norm.ppf]. *)
  norm_ppf : pyfloat → pyfloat;
  (** The square root of a non-negative rational, as the rolling standard
      deviation takes it of a variance. *)
  sqrt_Q : Q → Q;
}.

(** ** models/forecast.py, models/anomaly.py *)

Record DataPoint := {
  date : string;
  value : pyfloat;
}.

(** A [DataFrame] by columns: the [unique_id] and [ds] columns, and the
    float-valued columns by name. *)
Record DataFrame := {
  df_unique_id : list string;
  df_ds : list Timestamp;
  df_num : gmap string (list pyfloat);
}.

(** [len(df)]. *)
Definition df_len (df : DataFrame) : nat := length (df_ds df).

Section data_processing.
Context {ext : Externals}.

(** *** prepare_dataframe *)

(** The list comprehension [pd.to_datetime(point.date) for point in data]:
    the first date that does not parse raises. *)
Fixpoint parse_dates (data : list DataPoint) : string + list Timestamp :=
  match data with
  | [] => inr []
  | point :: rest =>
      match to_datetime (date point) with
      | inl e => inl e
      | inr t =>
          match parse_dates rest with
          | inl e => inl e
          | inr ts => inr (t :: ts)
          end
      end
  end.

Definition ds_le (a b : Timestamp * pyfloat) : Prop := (a.1 ≤ b.1)%Z.

#[global] Instance ds_le_dec a b : Decision (ds_le a b).
Proof. unfold ds_le. apply _. Defined.

(** [df.sort_values('ds').reset_index(drop=True)] on the rows. *)
Definition sort_values_ds (rows : list (Timestamp * pyfloat))
  : list (Timestamp * pyfloat) :=
  merge_sort ds_le rows.

Definition prepare_dataframe (data : list DataPoint) (unique_id : string)
  : result DataFrame :=
  match parse_dates data with
  | inl e => Raise (LibraryError e)
  | inr ts =>
      match data with
      | [] => Raise (KeyError "ds")
      | _ =>
          let rows := sort_values_ds (zip ts (value <$> data)) in
          Ok {| df_unique_id := replicate (length rows) unique_id;
                df_ds := rows.*1;
                df_num := {[ "y" := rows.*2 ]} |}
      end
  end.

(** *** infer_frequency *)

(** [Series.diff().dropna()]: the gaps between consecutive entries. *)
Fixpoint diff (l : list Z) : list Z :=
  match l with
  | a :: (b :: _) as rest => (b - a)%Z :: diff rest
  | _ => []
  end.

(** [Series.median()] of timedeltas: the middle of the sorted gaps, the
    mean of the two middle ones when their number is even. *)
Definition median (l : list Z) : Z :=
  let s := merge_sort Z.le l in
  let n := length s in
  if Nat.even n
  then ((s !!! (n / 2 - 1)%nat + s !!! (n / 2)%nat) `quot` 2)%Z
  else s !!! (n / 2)%nat.

(** [Timedelta.days] and [Timedelta.total_seconds()]. *)
Definition td_days (td : Z) : Z := (td `div` 86400000000000)%Z.
Definition td_total_seconds (td : Z) : pyfloat := int_truediv td 1000000000.

Definition classify_gap (median_diff : Z) : string :=
  let days := td_days median_diff in
  let seconds := td_total_seconds median_diff in
  if flt seconds (float_of_Z 3600) then "T"
  else if flt seconds (float_of_Z 86400) then "H"
  else if (days <=? 1)%Z then "D"
  else if (days <=? 8)%Z then "W"
  else if (days <=? 32)%Z then "M"
  else if (days <=? 100)%Z then "Q"
  else "Y".

Definition median_gap (df : DataFrame) : Z := median (diff (df_ds df)).

Definition infer_frequency (df : DataFrame) : string :=
  if (df_len df <? 2)%nat then "D"
  else classify_gap (median_gap df).

(** *** auto_detect_season_length *)

Definition freq_to_season : gmap string Z :=
  {[ "H" := 24; "D" := 7; "W" := 52; "M" := 12; "Q" := 4; "Y" := 1 ]}%Z.

Definition auto_detect_season_length (df : DataFrame) (freq : string) : Z :=
  default 7%Z (freq_to_season !! freq).

(** *** validate_data *)

(** [str(point.value)] for a value that is not finite. *)
Definition str_nonfinite (v : pyfloat) : string :=
  match v with
  | PInf => "inf"
  | NInf => "-inf"
  | _ => "nan"
  end.

(** The loop over the points; [point.value] is a [float], so the
    [isinstance] test passes and the point is refused when
    [math.isnan] or [math.isinf] holds. *)
Fixpoint check_values (data : list DataPoint) : result () :=
  match data with
  | [] => Ok ()
  | point :: rest =>
      if isnan (value point) || isinf (value point)
      then Raise (ValueError ("Invalid value at " +:+ date point +:+ ": "
                                +:+ str_nonfinite (value point)))
      else check_values rest
  end.

Definition validate_data (data : list DataPoint) : result () :=
  if (length data <? 2)%nat
  then Raise (ValueError "Need at least 2 data points")
  else
    _ ← check_values data;
    dates ← match parse_dates data with
             | inl e => Raise (ValueError ("Invalid date format: " +:+ e))
             | inr ts => Ok ts
             end;
    if bool_decide (length dates ≠ size (list_to_set dates : gset Timestamp))
    then Raise (ValueError "Duplicate dates found in data")
    else Ok ().

End data_processing.


(** ** models/anomaly.py, models/forecast.py: the response structures *)

Record ExpectedRange := {
  lower : pyfloat;
  upper : pyfloat;
}.

Record AnomalyPoint := {
  anomaly_date : string;
  anomaly_value : pyfloat;
  severity : string;
  expectedRange : ExpectedRange;
  deviation : pyfloat;
}.

Record ConfidenceBand := {
  band_date : string;
  band_lower : pyfloat;
  band_upper : pyfloat;
}.

Record AnomalyRequest := {
  data : list DataPoint;
  sensitivity : string;
  seasonLength : option Z;
  showConfidenceBands : bool;
}.

Record AnomalyResponse := {
  anomalies : list AnomalyPoint;
  totalPoints : nat;
  anomalyCount : nat;
  anomalyRate : pyfloat;
  confidenceBands : option (list ConfidenceBand);
  modelUsed : string;
  sensitivity_used : string;
  computationTimeMs : pyfloat;
}.

Record ForecastPoint := {
  forecast_date : string;
  forecast_value : pyfloat;
}.

(** The statsforecast models the service builds, each from a season length. *)
Inductive Model : Type :=
  | AutoARIMA (season_length : Z)
  | AutoETS (season_length : Z)
  | AutoTheta (season_length : Z).

(** ** pandas: rows, columns and rolling windows *)

(** One row of [DataFrame.iterrows()]: its timestamp and its float cells. *)
Record Row := {
  row_ds : Timestamp;
  row_num : gmap string pyfloat;
}.

Definition iterrows (df : DataFrame) : list Row :=
  imap (λ i t, {| row_ds := t;
                  row_num := omap (λ col : list pyfloat, col !! i) (df_num df) |})
       (df_ds df).

(** [row[key]] and [df[key]] on the float columns. *)
Definition row_getitem (row : Row) (key : string) : result pyfloat :=
  match row_num row !! key with
  | Some v => Ok v
  | None => Raise (KeyError key)
  end.

Definition df_getitem (df : DataFrame) (key : string) : result (list pyfloat) :=
  match df_num df !! key with
  | Some col => Ok col
  | None => Raise (KeyError key)
  end.

(** [df[key] = col]. *)
Definition df_setitem (df : DataFrame) (key : string) (col : list pyfloat)
  : DataFrame :=
  {| df_unique_id := df_unique_id df;
     df_ds := df_ds df;
     df_num := <[key := col]> (df_num df) |}.

(** The bounds [start, end) of the centred fixed window of output [i]
    (pandas' [FixedWindowIndexer] with [center=True]), clipped to the
    series. *)
Definition window_bounds (num_values window i : nat) : nat * nat :=
  let offset := ((window - 1) / 2)%nat in
  let end_ := (i + 1 + offset)%nat in
  ((end_ - window) `min` num_values, end_ `min` num_values)%nat.

Definition window_at (values : list pyfloat) (window i : nat) : list pyfloat :=
  let '(s, e) := window_bounds (length values) window i in
  take (e - s) (drop s values).

(** The observations of a window: a rolling aggregation skips [nan] and
    treats an infinity as [nan]. *)
Definition observations (w : list pyfloat) : list Q :=
  omap (λ x, match x with Fin q => Some q | _ => None end) w.

Definition Qsum (l : list Q) : Q := foldr Qplus 0%Q l.

Definition Q_of_nat (n : nat) : Q := inject_Z (Z.of_nat n).

(** The mean of a window, [min_periods=1]. *)
Definition window_mean (obs : list Q) : pyfloat :=
  if (1 <=? length obs)%nat
  then Fin (Qsum obs / Q_of_nat (length obs))
  else NaN.

(** The sample variance of a window ([ddof=1], [min_periods=1]): undefined
    on fewer than two observations. *)
Definition window_var (obs : list Q) : pyfloat :=
  let nobs := length obs in
  if (1 <=? nobs)%nat && (1 <? nobs)%nat
  then
    let mean := (Qsum obs / Q_of_nat nobs)%Q in
    Fin (Qsum ((λ x, (x - mean) * (x - mean))%Q <$> obs) / Q_of_nat (nobs - 1))
  else NaN.

Section statsforecast_service.
Context {ext : Externals}.

(** [zsqrt]: the square root, with a negative variance read as zero. *)
Definition zsqrt (x : pyfloat) : pyfloat :=
  match x with
  | Fin v => if Qltb v 0 then Fin 0 else Fin (sqrt_Q v)
  | PInf => PInf
  | NInf => Fin 0
  | NaN => NaN
  end.

(** [pd.Series(values).rolling(window, center=True, min_periods=1).mean()]
    and [.std()]. *)
Definition rolling_mean (values : list pyfloat) (window : nat) : list pyfloat :=
  imap (λ i _, window_mean (observations (window_at values window i))) values.

Definition rolling_std (values : list pyfloat) (window : nat) : list pyfloat :=
  imap (λ i _, zsqrt (window_var (observations (window_at values window i))))
       values.

(** *** StatsForecastService *)

Definition SENSITIVITY_MAP : gmap string Z :=
  {[ "low" := 90; "medium" := 95; "high" := 99 ]}%Z.

Definition _determine_severity (deviation : pyfloat) (sensitivity : string)
  : string :=
  if bool_decide (sensitivity = "low") then
    if fgt deviation (Fin 3) then "high"
    else if fgt deviation (Fin 2) then "medium"
    else "low"
  else if bool_decide (sensitivity = "medium") then
    if fgt deviation (Fin 2) then "high"
    else if fgt deviation (Fin (3 # 2)) then "medium"
    else "low"
  else
    if fgt deviation (Fin (3 # 2)) then "high"
    else if fgt deviation (Fin 1) then "medium"
    else "low".

Definition _select_model (model_type : string) (season_length : Z)
  : Model * string :=
  if bool_decide (model_type = "arima") || bool_decide (model_type = "auto")
  then (AutoARIMA season_length, "AutoARIMA")
  else if bool_decide (model_type = "ets")
  then (AutoETS season_length, "AutoETS")
  else if bool_decide (model_type = "theta")
  then (AutoTheta season_length, "AutoTheta")
  else (AutoETS season_length, "AutoETS").

(** The body of the loop of [detect_anomalies] over the rows of
    [result_df], on the two lists it appends to. *)
Definition detect_row (request : AnomalyRequest) (lower_col upper_col : string)
    (acc : list AnomalyPoint * list ConfidenceBand) (row : Row)
  : result (list AnomalyPoint * list ConfidenceBand) :=
  let '(anomalies, confidence_bands) := acc in
  let date_str := strftime_ymd (row_ds row) in
  actual_value ← row_getitem row "y";
  let lower_bound := default NaN (row_num row !! lower_col) in
  let upper_bound := default NaN (row_num row !! upper_col) in
  if negb (isnan lower_bound) && negb (isnan upper_bound) then
    let confidence_bands :=
      if showConfidenceBands request
      then confidence_bands ++ [ {| band_date := date_str;
                                    band_lower := lower_bound;
                                    band_upper := upper_bound |} ]
      else confidence_bands in
    if flt actual_value lower_bound || fgt actual_value upper_bound then
      let range_size := fsub upper_bound lower_bound in
      let mid_point := fdiv (fadd upper_bound lower_bound) (Fin 2) in
      let deviation :=
        if fgt range_size (Fin 0)
        then fdiv (fabs (fsub actual_value mid_point)) (fdiv range_size (Fin 2))
        else Fin 0 in
      let severity := _determine_severity deviation (sensitivity request) in
      Ok (anomalies ++ [ {| anomaly_date := date_str;
                            anomaly_value := actual_value;
                            severity := severity;
                            expectedRange := {| lower := lower_bound;
                                                upper := upper_bound |};
                            deviation := deviation |} ],
          confidence_bands)
    else Ok (anomalies, confidence_bands)
  else Ok (anomalies, confidence_bands).

Fixpoint detect_rows (request : AnomalyRequest) (lower_col upper_col : string)
    (acc : list AnomalyPoint * list ConfidenceBand) (rows : list Row)
  : result (list AnomalyPoint * list ConfidenceBand) :=
  match rows with
  | [] => Ok acc
  | row :: rest =>
      acc' ← detect_row request lower_col upper_col acc row;
      detect_rows request lower_col upper_col acc' rest
  end.

(** [detect_anomalies] up to the prediction bounds: the validated, prepared
    frame [result_df] with its two bound columns, and the names of the
    two. *)
Definition prediction_bounds (request : AnomalyRequest)
  : result (DataFrame * string * string) :=
  _ ← validate_data (data request);
  df ← prepare_dataframe (data request) "series_1";
  let freq := infer_frequency df in
  let season_length :=
    match seasonLength request with
    | Some s => s
    | None => auto_detect_season_length df freq
    end in
  confidence_level ←
    match SENSITIVITY_MAP !! sensitivity request with
    | Some c => Ok c
    | None => Raise (KeyError (sensitivity request))
    end;
  (* the model (and the StatsForecast object around it) is built, not used *)
  let model := AutoETS season_length in
  let model_name := "AutoETS" in
  let result_df := df in
  values ← df_getitem df "y";
  let window := ((season_length * 2) `min` Z.of_nat (length values))%Z in
  let window := if (window <? 3)%Z then Z.of_nat (length values) else window in
  let rolling_mean := rolling_mean values (Z.to_nat window) in
  let rolling_std := rolling_std values (Z.to_nat window) in
  let z_score :=
    norm_ppf (fdiv (fadd (Fin 1) (int_truediv confidence_level 100)) (Fin 2)) in
  let lower_col := model_name +:+ "-lo-" +:+ pretty confidence_level in
  let upper_col := model_name +:+ "-hi-" +:+ pretty confidence_level in
  let result_df :=
    df_setitem result_df lower_col
      (zip_with fsub rolling_mean (fmul z_score <$> rolling_std)) in
  let result_df :=
    df_setitem result_df upper_col
      (zip_with fadd rolling_mean (fmul z_score <$> rolling_std)) in
  Ok (result_df, lower_col, upper_col).

(** [detect_anomalies]: the bounds, the loop over the rows and the response;
    [start_time] and [end_time] are the two readings of [time.time()]. *)
Definition detect_anomalies (request : AnomalyRequest)
    (start_time end_time : pyfloat) : result AnomalyResponse :=
  '(result_df, lower_col, upper_col) ← prediction_bounds request;
  let model_name := "AutoETS" in
  '(anomalies, confidence_bands) ←
    detect_rows request lower_col upper_col ([], []) (iterrows result_df);
  let total_points := df_len result_df in
  let anomaly_count := length anomalies in
  let anomaly_rate :=
    if (0 <? total_points)%nat
    then int_truediv (Z.of_nat anomaly_count) (Z.of_nat total_points)
    else Fin 0 in
  let computation_time := fmul (fsub end_time start_time) (Fin 1000) in
  Ok {| anomalies := anomalies;
        totalPoints := total_points;
        anomalyCount := anomaly_count;
        anomalyRate := anomaly_rate;
        confidenceBands :=
          if showConfidenceBands request then Some confidence_bands else None;
        modelUsed := model_name;
        sensitivity_used := sensitivity request;
        computationTimeMs := computation_time |}.

(** The first loop of [_extract_forecast_data], over the rows. *)
Fixpoint extract_points (model_name : string) (forecast_points : list ForecastPoint)
    (rows : list Row) : result (list ForecastPoint) :=
  match rows with
  | [] => Ok forecast_points
  | row :: rest =>
      forecast_value ← row_getitem row model_name;
      let date_str := strftime_ymd (row_ds row) in
      extract_points model_name
        (forecast_points ++ [ {| forecast_date := date_str;
                                 forecast_value := forecast_value |} ])
        rest
  end.

(** The second loop, over the requested levels.  The name of an interval
    column holds [-hi-] or [-lo-]: it is a float column, neither [ds] nor
    [unique_id]. *)
Fixpoint extract_intervals (forecasts_df : DataFrame) (model_name : string)
    (confidence_intervals : gmap string (list pyfloat))
    (confidence_levels : list Z) : result (gmap string (list pyfloat)) :=
  match confidence_levels with
  | [] => Ok confidence_intervals
  | level :: rest =>
      let upper_col := model_name +:+ "-hi-" +:+ pretty level in
      let lower_col := model_name +:+ "-lo-" +:+ pretty level in
      if bool_decide (upper_col ∈ dom (df_num forecasts_df)) then
        uppers ← df_getitem forecasts_df upper_col;
        let confidence_intervals :=
          <["upper_" +:+ pretty level := uppers]> confidence_intervals in
        lowers ← df_getitem forecasts_df lower_col;
        let confidence_intervals :=
          <["lower_" +:+ pretty level := lowers]> confidence_intervals in
        extract_intervals forecasts_df model_name confidence_intervals rest
      else
        extract_intervals forecasts_df model_name confidence_intervals rest
  end.

Definition _extract_forecast_data (forecasts_df : DataFrame)
    (model_name : string) (confidence_levels : list Z)
  : result (list ForecastPoint * gmap string (list pyfloat)) :=
  forecast_points ← extract_points model_name [] (iterrows forecasts_df);
  confidence_intervals ←
    extract_intervals forecasts_df model_name ∅ confidence_levels;
  Ok (forecast_points, confidence_intervals).

End statsforecast_service.


(** ** A concrete instance of the libraries

    ISO dates [YYYY-MM-DD] at midnight UTC, the three critical values the
    service asks of [norm.ppf], and a square root to eight decimals.  The
    theorems below hold for every instance; this one runs the services on
    concrete requests. *)

Module Iso.

Local Open Scope Z_scope.

Definition digit (c : ascii) : option Z :=
  let n := Z.of_nat (nat_of_ascii c) in
  if (48 <=? n) && (n <=? 57) then Some (n - 48) else None.

Fixpoint number (acc : Z) (cs : list ascii) : option Z :=
  match cs with
  | [] => Some acc
  | c :: rest =>
      match digit c with
      | Some d => number (10 * acc + d) rest
      | None => None
      end
  end.

Definition is_leap (y : Z) : bool :=
  ((y mod 4 =? 0) && negb (y mod 100 =? 0)) || (y mod 400 =? 0).

Definition days_in_month (y m : Z) : Z :=
  if m =? 2 then (if is_leap y then 29 else 28)
  else if (m =? 4) || (m =? 6) || (m =? 9) || (m =? 11) then 30
  else 31.

(** Days since 1970-01-01 of a civil date. *)
Definition days_from_civil (y m d : Z) : Z :=
  let y := if m <=? 2 then y - 1 else y in
  let era := y `div` 400 in
  let yoe := y - era * 400 in
  let mp := (m + 9) `mod` 12 in
  let doy := (153 * mp + 2) `div` 5 + d - 1 in
  let doe := yoe * 365 + yoe `div` 4 - yoe `div` 100 + doy in
  era * 146097 + doe - 719468.

Definition civil_from_days (days : Z) : Z * Z * Z :=
  let z := days + 719468 in
  let era := z `div` 146097 in
  let doe := z - era * 146097 in
  let yoe := (doe - doe `div` 1460 + doe `div` 36524 - doe `div` 146096) `div` 365 in
  let y := yoe + era * 400 in
  let doy := doe - (365 * yoe + yoe `div` 4 - yoe `div` 100) in
  let mp := (5 * doy + 2) `div` 153 in
  let d := doy - (153 * mp + 2) `div` 5 + 1 in
  let m := if mp <? 10 then mp + 3 else mp - 9 in
  (if m <=? 2 then y + 1 else y, m, d).

Definition ns_per_day : Z := 86400000000000.

Definition parse_iso (s : string) : string + Timestamp :=
  let bad := inl ("Unknown datetime string format, unable to parse: " +:+ s) in
  match String.list_ascii_of_string s with
  | [y1; y2; y3; y4; "-"%char; m1; m2; "-"%char; d1; d2] =>
      match number 0 [y1; y2; y3; y4], number 0 [m1; m2], number 0 [d1; d2] with
      | Some y, Some m, Some d =>
          if (1 <=? m) && (m <=? 12) && (1 <=? d) && (d <=? days_in_month y m)
          then inr (days_from_civil y m d * ns_per_day)
          else bad
      | _, _, _ => bad
      end
  | _ => bad
  end.

Definition pad (width : nat) (n : Z) : string :=
  let s := pretty n in
  String.string_of_list_ascii (replicate (width - String.length s) "0"%char) +:+ s.

Definition format_ymd (t : Timestamp) : string :=
  let '(y, m, d) := civil_from_days (t `div` ns_per_day) in
  pad 4 y +:+ "-" +:+ pad 2 m +:+ "-" +:+ pad 2 d.

(** [norm.ppf] at 0.95, 0.975 and 0.995, to sixteen decimals. *)
Definition ppf (p : pyfloat) : pyfloat :=
  match p with
  | Fin q =>
      if Qeq_bool q (19 # 20) then Fin (16448536269514722 # 10000000000000000)
      else if Qeq_bool q (39 # 40) then Fin (1959963984540054 # 1000000000000000)
      else if Qeq_bool q (199 # 200) then Fin (25758293035489004 # 10000000000000000)
      else NaN
  | _ => NaN
  end.

(** The square root of [n / d] as [sqrt (n * d) / d], on a numerator scaled
    to eight decimals. *)
Definition sqrt (q : Q) : Q :=
  let n := Qnum q in
  let d := Z.pos (Qden q) in
  if n <=? 0 then 0%Q
  else (Z.sqrt (n * d * 10000000000000000) # (Qden q * 100000000))%Q.

#[export] Instance externals : Externals := {|
  to_datetime := parse_iso;
  strftime_ymd := format_ymd;
  norm_ppf := ppf;
  sqrt_Q := sqrt;
|}.

End Iso.


(** * The callers: forecasting, the endpoints, the conversion script *)

(** ** models/forecast.py *)

Record ForecastRequest := {
  forecast_data : list DataPoint;
  horizon : Z;
  model : string;
  forecast_seasonLength : option Z;
  confidenceLevels : list Z;
}.

Record ForecastMetrics := {
  aic : option pyfloat;
  bic : option pyfloat;
  mape : option pyfloat;
  computation_time_ms : pyfloat;
}.

Record ForecastResponse := {
  forecast : list ForecastPoint;
  confidenceIntervals : gmap string (list pyfloat);
  forecast_modelUsed : string;
  metrics : ForecastMetrics;
}.

(** [StatsForecast(models=[model], freq=freq, n_jobs=1).forecast(df=df, h=h,
    level=level)]: the frame of forecasts, or the exception of the fit. *)
Class Forecaster := {
  sf_forecast : Model → string → DataFrame → Z → list Z → result DataFrame;
}.

(** What the endpoints and the script use of Python's built-ins: [repr] of a
    [str] (the text of a [KeyError]) and [str.strip]. *)
Class Builtins := {
  repr_str : string → string;
  str_strip : string → string;
}.

Section generate_forecast.
Context {ext : Externals} {fc : Forecaster}.

(** [StatsForecastService.generate_forecast]; [start_time] and [end_time]
    are the two readings of [time.time()]. *)
Definition generate_forecast (request : ForecastRequest)
    (start_time end_time : pyfloat) : result ForecastResponse :=
  _ ← validate_data (forecast_data request);
  df ← prepare_dataframe (forecast_data request) "series_1";
  let freq := infer_frequency df in
  let season_length :=
    match forecast_seasonLength request with
    | Some s => s
    | None => auto_detect_season_length df freq
    end in
  let '(model, model_name) := _select_model (model request) season_length in
  forecasts_df ←
    sf_forecast model freq df (horizon request) (confidenceLevels request);
  '(forecast_points, confidence_intervals) ←
    _extract_forecast_data forecasts_df model_name (confidenceLevels request);
  let computation_time := fmul (fsub end_time start_time) (Fin 1000) in
  let metrics := {| aic := None;
                    bic := None;
                    mape := None;
                    computation_time_ms := computation_time |} in
  Ok {| forecast := forecast_points;
        confidenceIntervals := confidence_intervals;
        forecast_modelUsed := model_name;
        metrics := metrics |}.

End generate_forecast.

(** ** routers/anomaly.py, routers/forecast.py *)

(** What an endpoint gives back: the response, or the [HTTPException] it
    raises. *)
Inductive endpoint (A : Type) : Type :=
  | Returns (a : A)
  | HTTPException (status_code : Z) (detail : string).
Arguments Returns {A} a.
Arguments HTTPException {A} status_code detail.

Section routers.
Context {ext : Externals} {fc : Forecaster} {py : Builtins}.

(** [str(e)]. *)
Definition str_exn (e : exn) : string :=
  match e with
  | ValueError msg => msg
  | KeyError key => repr_str key
  | LibraryError msg => msg
  end.

(** The two handlers of an endpoint: a [ValueError] is the client's
    (status 400, its text), every other exception the server's (status 500,
    the text behind [prefix]).  A [LibraryError] is an exception of a
    library that is not a [ValueError]. *)
Definition handle {A : Type} (prefix : string) (r : result A) : endpoint A :=
  match r with
  | Ok a => Returns a
  | Raise (ValueError msg) => HTTPException 400 (str_exn (ValueError msg))
  | Raise e => HTTPException 500 (prefix +:+ str_exn e)
  end.


(** [POST /api/v1/forecast]. *)
Definition generate_forecast_endpoint (request : ForecastRequest)
    (start_time end_time : pyfloat) : endpoint ForecastResponse :=
  handle "Forecast generation failed: "
         (generate_forecast request start_time end_time).

End routers.


Definition ForecastRequest_fields (request : ForecastRequest) : Prop :=
  10 ≤ length (forecast_data request) ∧
  (0 < horizon request ≤ 365)%Z ∧
  model request ∈ ["auto"; "arima"; "ets"; "theta"] ∧
  (∀ s, forecast_seasonLength request = Some s → (1 < s)%Z).

(** ** scripts/convertWeatherData.py *)

(** A row of [csv.DictReader]: the cell of each field name, [None] where
    the line is short.  A row given to [csv.writer]: its cells. *)
Section convertWeatherData.
Context {py : Builtins}.

(** [row[key]]. *)
Definition csv_getitem (row : gmap string (option string)) (key : string)
  : result (option string) :=
  match row !! key with
  | Some cell => Ok cell
  | None => Raise (KeyError key)
  end.

(** [tmax and tmax.strip()], as a truth value. *)
Definition has_value (tmax : option string) : bool :=
  match tmax with
  | None => false
  | Some s => negb (bool_decide (s = "")) && negb (bool_decide (str_strip s = ""))
  end.

(** The loop over the rows of the reader, on the rows written so far. *)
Fixpoint convert_rows (written : list (list (option string)))
    (rows : list (gmap string (option string)))
  : result (list (list (option string))) :=
  match rows with
  | [] => Ok written
  | row :: rest =>
      date ← csv_getitem row "DATE";
      tmax ← csv_getitem row "TMAX";
      if has_value tmax
      then convert_rows (written ++ [[date; tmax; Some "1"]]) rest
      else convert_rows written rest
  end.

(** The script, from the rows read to the rows written: the header, then
    the loop. *)
Definition convertWeatherData (rows : list (gmap string (option string)))
  : result (list (list (option string))) :=
  convert_rows [[Some "date"; Some "numerator"; Some "denominator"]] rows.

End convertWeatherData.


(** * The vocabulary of the properties *)

(** ** The validator *)

(** A value is accepted when it is a finite number. *)
Definition finite_value (p : DataPoint) : Prop := ∃ q, value p = Fin q.

(** ** Frequency, season length, severity *)

(** The scale of the frequency codes, finest first. *)
Definition freq_rank (freq : string) : nat :=
  if bool_decide (freq = "T") then 0
  else if bool_decide (freq = "H") then 1
  else if bool_decide (freq = "D") then 2
  else if bool_decide (freq = "W") then 3
  else if bool_decide (freq = "M") then 4
  else if bool_decide (freq = "Q") then 5
  else 6.

(** The default table in the words of the specification, which reads a
    sub-hourly frequency as the hourly default. *)
Definition spec_default_season (freq : string) : Z :=
  if bool_decide (freq = "T") then 24
  else if bool_decide (freq = "H") then 24
  else if bool_decide (freq = "D") then 7
  else if bool_decide (freq = "W") then 52
  else if bool_decide (freq = "M") then 12
  else if bool_decide (freq = "Q") then 4
  else if bool_decide (freq = "Y") then 1
  else 7.

(** The order of the severity tiers. *)
Definition severity_rank (severity : string) : nat :=
  if bool_decide (severity = "low") then 0
  else if bool_decide (severity = "medium") then 1
  else 2.

(** ** Frames *)

(** Every float column of a frame has one cell per row. *)
Definition df_rectangular (df : DataFrame) : Prop :=
  map_Forall (λ _ col, length col = df_len df) (df_num df).

(** The interval columns of a level: both or neither. *)
Definition level_columns_coherent (df : DataFrame) (model_name : string)
    (level : Z) : Prop :=
  is_Some (df_num df !! (model_name +:+ "-hi-" +:+ pretty level)) ↔
  is_Some (df_num df !! (model_name +:+ "-lo-" +:+ pretty level)).

(** ** The rows of the detector *)

(** The cells the loop reads in a row of [result_df]. *)
Definition row_value (row : Row) : pyfloat :=
  default NaN (row_num row !! "y").

Definition row_lower (lower_col : string) (row : Row) : pyfloat :=
  default NaN (row_num row !! lower_col).

Definition row_upper (upper_col : string) (row : Row) : pyfloat :=
  default NaN (row_num row !! upper_col).

(** Both bounds of the row are defined (neither is [nan]). *)
Definition bounds_defined (lower_col upper_col : string) (row : Row) : bool :=
  negb (isnan (row_lower lower_col row)) && negb (isnan (row_upper upper_col row)).

(** The value of the row lies strictly outside [[lower, upper]]. *)
Definition strictly_outside (lower_col upper_col : string) (row : Row) : bool :=
  flt (row_value row) (row_lower lower_col row)
  || flt (row_upper upper_col row) (row_value row).

(** The deviation of a value from the middle of its range, in half ranges,
    zero on a range that is not of positive width. *)
Definition half_range_deviation (actual lower_bound upper_bound : pyfloat)
  : pyfloat :=
  if fgt (fsub upper_bound lower_bound) (Fin 0)
  then fdiv (fabs (fsub actual (fdiv (fadd upper_bound lower_bound) (Fin 2))))
            (fdiv (fsub upper_bound lower_bound) (Fin 2))
  else Fin 0.


(** The rolling mean of output [i]. *)
Definition mean_at (values : list pyfloat) (window i : nat) : pyfloat :=
  window_mean (observations (window_at values window i)).

Section vocabulary.
Context {ext : Externals}.

(** [ts] are the normalized dates of [data], every date having parsed. *)
Definition dates_parse_to (data : list DataPoint) (ts : list Timestamp) : Prop :=
  Forall2 (λ p t, to_datetime (date p) = inr t) data ts.

(** The rolling standard deviation of output [i]. *)
Definition std_at (values : list pyfloat) (window i : nat) : pyfloat :=
  zsqrt (window_var (observations (window_at values window i))).

(** The point and the band the loop appends for a row. *)
Definition flagged_point (request : AnomalyRequest)
    (lower_col upper_col : string) (row : Row) : AnomalyPoint :=
  let d := half_range_deviation (row_value row) (row_lower lower_col row)
             (row_upper upper_col row) in
  {| anomaly_date := strftime_ymd (row_ds row);
     anomaly_value := row_value row;
     severity := _determine_severity d (sensitivity request);
     expectedRange := {| lower := row_lower lower_col row;
                         upper := row_upper upper_col row |};
     deviation := d |}.

Definition band_of (lower_col upper_col : string) (row : Row) : ConfidenceBand :=
  {| band_date := strftime_ymd (row_ds row);
     band_lower := row_lower lower_col row;
     band_upper := row_upper upper_col row |}.

End vocabulary.

(** ** The prepared frame *)

(** The pair of a point: its parsed date and its value. *)
Definition parsed_rows {ext : Externals} (data : list DataPoint)
    (rows : list (Timestamp * pyfloat)) : Prop :=
  Forall2 (λ p r, to_datetime (date p) = inr r.1 ∧ value p = r.2) data rows.

(** ** The detector *)

(** The season length [detect_anomalies] settles on for a prepared frame. *)
Definition resolved_season_length (request : AnomalyRequest) (df : DataFrame)
  : Z :=
  match seasonLength request with
  | Some s => s
  | None => auto_detect_season_length df (infer_frequency df)
  end.

(** The window of the rolling statistics, for a season length and a number
    of values. *)
Definition detector_window (season_length : Z) (n : nat) : nat :=
  Z.to_nat (if ((season_length * 2) `min` Z.of_nat n <? 3)%Z
            then Z.of_nat n
            else (season_length * 2) `min` Z.of_nat n)%Z.

(** The critical value of a confidence level. *)
Definition z_score_of {ext : Externals} (confidence_level : Z) : pyfloat :=
  norm_ppf (fdiv (fadd (Fin 1) (int_truediv confidence_level 100)) (Fin 2)).

(** The fields of an anomaly and of a band that the two lists share. *)
Definition anomaly_range (a : AnomalyPoint) : string * pyfloat * pyfloat :=
  (anomaly_date a, lower (expectedRange a), upper (expectedRange a)).

Definition band_range (b : ConfidenceBand) : string * pyfloat * pyfloat :=
  (band_date b, band_lower b, band_upper b).

(** ** Forecasts *)

(** The upper column of a level has its lower column beside it. *)
Definition level_has_lower (df : DataFrame) (model_name : string) (level : Z)
  : Prop :=
  is_Some (df_num df !! (model_name +:+ "-hi-" +:+ pretty level)) →
  is_Some (df_num df !! (model_name +:+ "-lo-" +:+ pretty level)).

#[global] Instance level_has_lower_dec df model_name level :
  Decision (level_has_lower df model_name level).
Proof. unfold level_has_lower. apply _. Defined.

(** The season length [generate_forecast] settles on for a prepared frame. *)
Definition forecast_season_length (request : ForecastRequest) (df : DataFrame)
  : Z :=
  match forecast_seasonLength request with
  | Some s => s
  | None => auto_detect_season_length df (infer_frequency df)
  end.

(** A frame of forecasts as the request asks for it: one row per period of
    the horizon, the column of the model, and both interval columns of
    every level. *)
Definition forecast_frame_complete (model_name : string) (h : Z)
    (levels : list Z) (forecasts_df : DataFrame) : Prop :=
  df_rectangular forecasts_df ∧
  df_len forecasts_df = Z.to_nat h ∧
  is_Some (df_num forecasts_df !! model_name) ∧
  Forall (λ level,
            is_Some (df_num forecasts_df
                       !! (model_name +:+ "-hi-" +:+ pretty level)) ∧
            is_Some (df_num forecasts_df
                       !! (model_name +:+ "-lo-" +:+ pretty level))) levels.

(** ** The rows of the conversion script *)

(** The cell of a field in a row of the reader, [None] where the row has
    no such field. *)
Definition csv_cell (row : gmap string (option string)) (key : string)
  : option string :=
  mjoin (row !! key).

(** The row has the two fields the script reads. *)
Definition row_complete (row : gmap string (option string)) : Prop :=
  is_Some (row !! "DATE") ∧ is_Some (row !! "TMAX").

(** The row the script writes for a row it keeps. *)
Definition written_row (row : gmap string (option string))
  : list (option string) :=
  [csv_cell row "DATE"; csv_cell row "TMAX"; Some "1"].

#[global] Instance row_complete_dec row : Decision (row_complete row).
Proof. unfold row_complete. apply _. Defined.

(** * Sample inputs *)

(** Two points one minute apart. *)
Definition minute_frame : DataFrame :=
  {| df_unique_id := ["series_1"; "series_1"];
     df_ds := [0; 60000000000]%Z;
     df_num := {[ "y" := [Fin 1; Fin 2] ]} |}.

(** Seven points a day apart, and seven a week apart. *)
Definition daily_frame : DataFrame :=
  {| df_unique_id := replicate 7 "series_1";
     df_ds := (λ i, Z.of_nat i * 86400000000000)%Z <$> seq 0 7;
     df_num := {[ "y" := replicate 7 (Fin 1) ]} |}.

Definition weekly_frame : DataFrame :=
  {| df_unique_id := replicate 7 "series_1";
     df_ds := (λ i, Z.of_nat i * 604800000000000)%Z <$> seq 0 7;
     df_num := {[ "y" := replicate 7 (Fin 1) ]} |}.

(** A two-row forecast with the interval columns of level 95 only. *)
Definition forecast_frame : DataFrame :=
  {| df_unique_id := ["series_1"; "series_1"];
     df_ds := [1704067200000000000; 1704153600000000000]%Z;
     df_num := {[ "AutoETS" := [Fin 10; Fin 11];
                  "AutoETS-lo-95" := [Fin 8; Fin 9];
                  "AutoETS-hi-95" := [Fin 12; Fin 13] ]} |}.

(** The same forecast without the lower column of level 95. *)
Definition upper_only_frame : DataFrame :=
  {| df_unique_id := ["series_1"; "series_1"];
     df_ds := [1704067200000000000; 1704153600000000000]%Z;
     df_num := {[ "AutoETS" := [Fin 10; Fin 11];
                  "AutoETS-hi-95" := [Fin 12; Fin 13] ]} |}.

(** A point of January 2024. *)
Definition jan_point (day : nat) (v : Z) : DataPoint :=
  {| date := "2024-01-" +:+ Iso.pad 2 (Z.of_nat day);
     value := float_of_Z v |}.

(** Thirty daily points of value 100, but 200 on the fifteenth. *)
Definition outlier_series : list DataPoint :=
  (λ day, jan_point day (if day =? 15 then 200 else 100)) <$> seq 1 30.

Definition outlier_request : AnomalyRequest :=
  {| data := outlier_series;
     sensitivity := "medium";
     seasonLength := None;
     showConfidenceBands := true |}.

(** Twenty-five daily points of value 50. *)
Definition constant_series : list DataPoint :=
  (λ day, jan_point day 50) <$> seq 1 25.

Definition constant_request : AnomalyRequest :=
  {| data := constant_series;
     sensitivity := "medium";
     seasonLength := None;
     showConfidenceBands := true |}.

(** Three daily points, the latest first, and the same points in order. *)
Definition shuffled_series : list DataPoint :=
  [jan_point 3 30; jan_point 1 10; jan_point 2 20].

Definition ordered_series : list DataPoint :=
  [jan_point 1 10; jan_point 2 20; jan_point 3 30].

(** The dates of [shuffled_series], in nanoseconds. *)
Definition shuffled_dates : list Timestamp :=
  [1704240000000000000; 1704067200000000000; 1704153600000000000]%Z.

Definition shuffled_request : AnomalyRequest :=
  {| data := shuffled_series;
     sensitivity := "medium";
     seasonLength := None;
     showConfidenceBands := true |}.

(** A forecaster that answers every call with [forecast_frame]. *)
Definition fixed_forecaster : Forecaster :=
  {| sf_forecast := λ _ _ _ _ _, Ok forecast_frame |}.

Definition forecast_request : ForecastRequest :=
  {| forecast_data := shuffled_series;
     horizon := 2;
     model := "ets";
     forecast_seasonLength := None;
     confidenceLevels := [95]%Z |}.


(** * Properties *)

(** ** Comparisons on rationals and floats *)

Lemma Qltb_lt (a b : Q) : Qltb a b = true ↔ (a < b)%Q.
Proof. unfold Qltb, Qlt. apply Z.ltb_lt. Qed.

Lemma Qltb_ge (a b : Q) : Qltb a b = false ↔ (b <= a)%Q.
Proof. unfold Qltb, Qle. apply Z.ltb_ge. Qed.

Lemma Qleb_le (a b : Q) : Qleb a b = true ↔ (a <= b)%Q.
Proof. unfold Qleb, Qle. apply Z.leb_le. Qed.

Lemma Qeq_bool_true (a b : Q) : Qeq_bool a b = true ↔ (a == b)%Q.
Proof. split; [apply Qeq_bool_eq | apply Qeq_eq_bool]. Qed.

Lemma Qeq_bool_false (a b : Q) : Qeq_bool a b = false ↔ ¬ (a == b)%Q.
Proof.
  rewrite <- Qeq_bool_true. destruct (Qeq_bool a b); split; congruence.
Qed.

(** ** The validator *)

Section validator.
Context {ext : Externals}.

Lemma check_values_Ok (data : list DataPoint) :
  check_values data = Ok () ↔ Forall finite_value data.
Proof.
  induction data as [|p data IH]; simpl.
  - split; [constructor | reflexivity].
  - destruct (value p) as [q| | |] eqn:Hv; simpl.
    + rewrite IH. split.
      * intros Hall. constructor; [exists q; exact Hv | exact Hall].
      * intros Hall. inversion Hall; assumption.
    + split; [discriminate|]. intros Hall. inversion Hall as [|? ? [q Hq] ?].
      congruence.
    + split; [discriminate|]. intros Hall. inversion Hall as [|? ? [q Hq] ?].
      congruence.
    + split; [discriminate|]. intros Hall. inversion Hall as [|? ? [q Hq] ?].
      congruence.
Qed.

Lemma check_values_total (data : list DataPoint) :
  check_values data = Ok () ∨ ∃ msg, check_values data = Raise (ValueError msg).
Proof.
  induction data as [|p data IH]; simpl; [left; reflexivity|].
  destruct (isnan (value p) || isinf (value p)); [right; eauto | exact IH].
Qed.

Lemma parse_dates_inr (data : list DataPoint) (ts : list Timestamp) :
  parse_dates data = inr ts ↔ dates_parse_to data ts.
Proof.
  unfold dates_parse_to. revert ts.
  induction data as [|p data IH]; intros ts; simpl.
  - split.
    + intros [= <-]. constructor.
    + intros Hall. inversion Hall. reflexivity.
  - destruct (to_datetime (date p)) as [e|t] eqn:Hp.
    + split; [discriminate|]. intros Hall. inversion Hall; congruence.
    + destruct (parse_dates data) as [e|ts'] eqn:Hrest.
      * split; [discriminate|]. intros Hall.
        inversion Hall as [|? ? ? ts'' ? Hall']; subst.
        apply IH in Hall'. discriminate.
      * split.
        -- intros [= <-]. constructor; [exact Hp | apply IH; reflexivity].
        -- intros Hall. inversion Hall as [|? t' ? ts'' Ht Hall']; subst.
           apply IH in Hall'. congruence.
Qed.

Lemma size_list_to_set_le (l : list Timestamp) :
  size (list_to_set l : gset Timestamp) ≤ length l.
Proof.
  induction l as [|x l IH].
  - rewrite list_to_set_nil, size_empty. simpl. lia.
  - rewrite list_to_set_cons, size_union_alt, size_singleton. simpl.
    assert (size (list_to_set l ∖ {[x]} : gset Timestamp)
            ≤ size (list_to_set l : gset Timestamp)) as Hsub.
    { apply subseteq_size. intros y. rewrite elem_of_difference. tauto. }
    lia.
Qed.

Lemma size_list_to_set_NoDup (l : list Timestamp) :
  length l = size (list_to_set l : gset Timestamp) ↔ NoDup l.
Proof.
  split.
  - induction l as [|x l IH]; intros Hlen; [constructor|].
    rewrite list_to_set_cons in Hlen. simpl in Hlen.
    destruct (decide (x ∈ l)) as [Hin|Hnin].
    + exfalso.
      assert ({[x]} ∪ list_to_set l = (list_to_set l : gset Timestamp)) as Heq.
      { apply subseteq_union_1_L, singleton_subseteq_l, elem_of_list_to_set.
        exact Hin. }
      rewrite Heq in Hlen. pose proof (size_list_to_set_le l). lia.
    + constructor; [exact Hnin|]. apply IH.
      rewrite size_union, size_singleton in Hlen
        by (apply disjoint_singleton_l; rewrite elem_of_list_to_set; exact Hnin).
      lia.
  - intros Hnd. symmetry. apply size_list_to_set. exact Hnd.
Qed.


End validator.

(** ** Frequency and season length *)

Section frequency.
Context {ext : Externals}.

Lemma total_seconds_lt (td k : Z) :
  flt (td_total_seconds td) (float_of_Z k) = (td <? k * 1000000000)%Z.
Proof.
  unfold td_total_seconds, int_truediv, float_of_Z, fdiv, flt.
  replace (Qeq_bool (inject_Z 1000000000) 0) with false by reflexivity.
  destruct (td <? k * 1000000000)%Z eqn:Hlt.
  - apply Qltb_lt. apply Z.ltb_lt in Hlt.
    apply Qlt_shift_div_r; [reflexivity|].
    rewrite <- inject_Z_mult, <- Zlt_Qlt. exact Hlt.
  - apply Qltb_ge. apply Z.ltb_ge in Hlt.
    apply Qle_shift_div_l; [reflexivity|].
    rewrite <- inject_Z_mult, <- Zle_Qle. exact Hlt.
Qed.

Lemma classify_gap_monotone (g1 g2 : Z) :
  (g1 ≤ g2)%Z → freq_rank (classify_gap g1) ≤ freq_rank (classify_gap g2).
Proof.
  intros Hle. unfold classify_gap. rewrite !total_seconds_lt.
  assert (td_days g1 ≤ td_days g2)%Z as Hdays
    by (unfold td_days; apply Z.div_le_mono; lia).
  assert (86400 * 1000000000 ≤ g2 → 1 ≤ td_days g2)%Z as Hday2.
  { intros Hg. unfold td_days.
    change 1%Z with (86400000000000 `div` 86400000000000)%Z.
    apply Z.div_le_mono; lia. }
  repeat match goal with
         | |- context [(?a <? ?b)%Z] => destruct (Z.ltb_spec a b)
         | |- context [(?a <=? ?b)%Z] => destruct (Z.leb_spec a b)
         end; vm_compute; lia.
Qed.

Lemma infer_frequency_codes (df : DataFrame) :
  infer_frequency df ∈ ["T"; "H"; "D"; "W"; "M"; "Q"; "Y"].
Proof.
  unfold infer_frequency, classify_gap.
  repeat match goal with
         | |- context [if ?b then _ else _] => destruct b
         end; set_solver.
Qed.

(** C2, as the code has it.  With no season length in the request the
    default depends on the frequency code alone (the frame is not read):
    hourly 24, daily 7, weekly 52, monthly 12, quarterly 4, yearly 1; the
    sub-hourly code is not a key of the table and, as every other code that
    is not, takes the default 7.  Every frame is given one of the seven
    codes. *)
Theorem auto_detect_season_length_table (df : DataFrame) (freq : string) :
  auto_detect_season_length df "H" = 24%Z ∧
  auto_detect_season_length df "D" = 7%Z ∧
  auto_detect_season_length df "W" = 52%Z ∧
  auto_detect_season_length df "M" = 12%Z ∧
  auto_detect_season_length df "Q" = 4%Z ∧
  auto_detect_season_length df "Y" = 1%Z ∧
  auto_detect_season_length df "T" = 7%Z ∧
  (freq ∉ ["H"; "D"; "W"; "M"; "Q"; "Y"] →
   auto_detect_season_length df freq = 7%Z) ∧
  (∀ df' : DataFrame,
     auto_detect_season_length df' freq = auto_detect_season_length df freq) ∧
  infer_frequency df ∈ ["T"; "H"; "D"; "W"; "M"; "Q"; "Y"].
Proof.
  repeat split; try reflexivity; [|apply infer_frequency_codes].
  intros Hnot. unfold auto_detect_season_length, freq_to_season.
  repeat (rewrite lookup_insert_ne by (intros <-; apply Hnot; set_solver)).
  rewrite lookup_singleton_ne by (intros <-; apply Hnot; set_solver).
  reflexivity.
Qed.

(** C2, as the specification words it, fails: two points a minute apart are
    classified sub-hourly, for which the specification promises the hourly
    default 24 and the code answers 7. *)
Lemma auto_detect_season_length_sub_hourly :
  infer_frequency minute_frame = "T" ∧
  auto_detect_season_length minute_frame (infer_frequency minute_frame) = 7%Z ∧
  spec_default_season (infer_frequency minute_frame) = 24%Z ∧
  auto_detect_season_length minute_frame (infer_frequency minute_frame)
    ≠ spec_default_season (infer_frequency minute_frame).
Proof. repeat split. vm_compute. discriminate. Qed.

(** C7.  Frequency inference is monotone in the median gap: of two series
    with at least two points each, the one with the strictly smaller median
    gap is never given the coarser code on the scale
    T < H < D < W < M < Q < Y. *)
Theorem infer_frequency_monotone (df1 df2 : DataFrame) :
  2 ≤ df_len df1 → 2 ≤ df_len df2 →
  (median_gap df1 < median_gap df2)%Z →
  freq_rank (infer_frequency df1) ≤ freq_rank (infer_frequency df2).
Proof.
  intros H1 H2 Hgap. unfold infer_frequency.
  apply Nat.ltb_ge in H1, H2. rewrite H1, H2.
  apply classify_gap_monotone. lia.
Qed.

Lemma infer_frequency_monotone_witness :
  (2 ≤ df_len daily_frame ∧ 2 ≤ df_len weekly_frame ∧
   (median_gap daily_frame < median_gap weekly_frame)%Z) ∧
  freq_rank (infer_frequency daily_frame)
    ≤ freq_rank (infer_frequency weekly_frame).
Proof.
  split.
  - vm_compute. repeat split; lia.
  - apply (infer_frequency_monotone daily_frame weekly_frame);
      vm_compute; first [lia | reflexivity | intros [=]].
Defined.

End frequency.

(** ** Severity and model dispatch *)

Section tiers.
Context {ext : Externals}.

Lemma fgt_fle_trans (c : Q) (d1 d2 : pyfloat) :
  fle d1 d2 = true → fgt d1 (Fin c) = true → fgt d2 (Fin c) = true.
Proof.
  unfold fgt. destruct d1 as [q1| | |], d2 as [q2| | |]; simpl;
    try discriminate; try reflexivity.
  rewrite Qleb_le, !Qltb_lt. intros Hle Hlt.
  eapply Qlt_le_trans; eassumption.
Qed.

Lemma fgt_Fin (d c : Q) : fgt (Fin d) (Fin c) = true ↔ (c < d)%Q.
Proof. unfold fgt. simpl. apply Qltb_lt. Qed.

Lemma fgt_Fin_false (d c : Q) : fgt (Fin d) (Fin c) = false ↔ (d <= c)%Q.
Proof. unfold fgt. simpl. apply Qltb_ge. Qed.

Lemma _determine_severity_monotone (d1 d2 : pyfloat) (sensitivity : string) :
  fle d1 d2 = true →
  severity_rank (_determine_severity d1 sensitivity)
    ≤ severity_rank (_determine_severity d2 sensitivity).
Proof.
  intros Hle. unfold _determine_severity.
  repeat case_bool_decide;
    repeat match goal with
           | |- context [fgt d1 (Fin ?c)] =>
               let E := fresh "E" in
               destruct (fgt d1 (Fin c)) eqn:E;
               [rewrite (fgt_fle_trans c d1 d2 Hle E)|]
           end;
    repeat match goal with
           | |- context [fgt d2 (Fin ?c)] => destruct (fgt d2 (Fin c))
           end;
    vm_compute; lia.
Qed.

(** C5.  The severity of a deviation is the three-tier step function of the
    specification: at low sensitivity above 3 high, above 2 medium, else
    low; at medium sensitivity above 2 high, above 1.5 medium, else low; at
    high sensitivity above 1.5 high, above 1 medium, else low.  For any
    fixed sensitivity a larger deviation never has a lower severity. *)
Theorem _determine_severity_tiers (d : Q) :
  (((3 < d)%Q → _determine_severity (Fin d) "low" = "high") ∧
   ((2 < d)%Q ∧ (d <= 3)%Q → _determine_severity (Fin d) "low" = "medium") ∧
   ((d <= 2)%Q → _determine_severity (Fin d) "low" = "low")) ∧
  (((2 < d)%Q → _determine_severity (Fin d) "medium" = "high") ∧
   ((3 # 2 < d)%Q ∧ (d <= 2)%Q →
    _determine_severity (Fin d) "medium" = "medium") ∧
   ((d <= 3 # 2)%Q → _determine_severity (Fin d) "medium" = "low")) ∧
  (((3 # 2 < d)%Q → _determine_severity (Fin d) "high" = "high") ∧
   ((1 < d)%Q ∧ (d <= 3 # 2)%Q →
    _determine_severity (Fin d) "high" = "medium") ∧
   ((d <= 1)%Q → _determine_severity (Fin d) "high" = "low")) ∧
  (∀ (d1 d2 : pyfloat) (sensitivity : string),
     fle d1 d2 = true →
     severity_rank (_determine_severity d1 sensitivity)
       ≤ severity_rank (_determine_severity d2 sensitivity)).
Proof.
  assert (∀ x, _determine_severity x "low" =
               if fgt x (Fin 3) then "high"
               else if fgt x (Fin 2) then "medium" else "low") as Hlow
    by reflexivity.
  assert (∀ x, _determine_severity x "medium" =
               if fgt x (Fin 2) then "high"
               else if fgt x (Fin (3 # 2)) then "medium" else "low") as Hmed
    by reflexivity.
  assert (∀ x, _determine_severity x "high" =
               if fgt x (Fin (3 # 2)) then "high"
               else if fgt x (Fin 1) then "medium" else "low") as Hhigh
    by reflexivity.
  rewrite !Hlow, !Hmed, !Hhigh. clear Hlow Hmed Hhigh.
  repeat split;
    try (intros; apply _determine_severity_monotone; assumption);
    intros Hd;
    repeat match goal with
           | |- context [fgt (Fin d) (Fin ?c)] =>
               let E := fresh "E" in
               destruct (fgt (Fin d) (Fin c)) eqn:E;
               [apply fgt_Fin in E | apply fgt_Fin_false in E]
           end;
    first [reflexivity | exfalso; lra].
Qed.

(** C9.  Model dispatch is total on selector strings: [auto] and [arima]
    give the automatic ARIMA model, [ets] the automatic exponential
    smoothing model, [theta] the automatic Theta model, every other string
    the exponential smoothing model; the model built carries the season
    length and nothing else. *)
Theorem _select_model_dispatch (model_type : string) (season_length : Z) :
  _select_model "auto" season_length = (AutoARIMA season_length, "AutoARIMA") ∧
  _select_model "arima" season_length = (AutoARIMA season_length, "AutoARIMA") ∧
  _select_model "ets" season_length = (AutoETS season_length, "AutoETS") ∧
  _select_model "theta" season_length = (AutoTheta season_length, "AutoTheta") ∧
  (model_type ∉ ["auto"; "arima"; "ets"; "theta"] →
   _select_model model_type season_length
     = (AutoETS season_length, "AutoETS")) ∧
  (∃ (build : Z → Model) (name : string),
     build ∈ [AutoARIMA; AutoETS; AutoTheta] ∧
     ∀ s : Z, _select_model model_type s = (build s, name)).
Proof.
  repeat split; try reflexivity.
  - intros Hnot. unfold _select_model.
    repeat case_bool_decide; subst; simpl; try reflexivity;
      exfalso; apply Hnot; set_solver.
  - unfold _select_model.
    repeat case_bool_decide; simpl;
      first [ exists AutoARIMA, "AutoARIMA"; split; [set_solver | reflexivity]
            | exists AutoETS, "AutoETS"; split; [set_solver | reflexivity]
            | exists AutoTheta, "AutoTheta"; split; [set_solver | reflexivity] ].
Qed.

End tiers.

(** ** Forecast extraction *)

Section extraction.
Context {ext : Externals}.

Lemma lookup_iterrows (df : DataFrame) (i : nat) (row : Row) :
  iterrows df !! i = Some row →
  df_ds df !! i = Some (row_ds row) ∧
  ∀ key, row_num row !! key = df_num df !! key ≫= (λ col, col !! i).
Proof.
  unfold iterrows. rewrite list_lookup_imap.
  destruct (df_ds df !! i) as [t|] eqn:Ht; simpl; [|discriminate].
  intros [= <-]. simpl. split; [reflexivity|].
  intros key. apply lookup_omap.
Qed.

Lemma length_iterrows (df : DataFrame) : length (iterrows df) = df_len df.
Proof. unfold iterrows, df_len. apply length_imap. Qed.

Lemma iterrows_ds (df : DataFrame) : row_ds <$> iterrows df = df_ds df.
Proof.
  apply list_eq. intros i. rewrite list_lookup_fmap.
  destruct (iterrows df !! i) as [row|] eqn:Hrow; simpl.
  - apply lookup_iterrows in Hrow as [-> _]. reflexivity.
  - apply lookup_ge_None in Hrow. rewrite length_iterrows in Hrow.
    symmetry. apply lookup_ge_None. exact Hrow.
Qed.

(** The cells of a column of full length, read back row by row. *)
Lemma iterrows_column (df : DataFrame) (key : string) (col : list pyfloat) :
  df_num df !! key = Some col → length col = df_len df →
  (λ row, row_num row !! key) <$> iterrows df = Some <$> col.
Proof.
  intros Hcol Hlen. apply list_eq. intros i. rewrite !list_lookup_fmap.
  destruct (iterrows df !! i) as [row|] eqn:Hrow; simpl.
  - pose proof (lookup_lt_Some _ _ _ Hrow) as Hi.
    rewrite length_iterrows, <- Hlen in Hi.
    apply lookup_iterrows in Hrow as [_ Hnum].
    rewrite Hnum, Hcol. simpl.
    destruct (lookup_lt_is_Some_2 col i Hi) as [v Hv]. rewrite Hv. reflexivity.
  - apply lookup_ge_None in Hrow. rewrite length_iterrows, <- Hlen in Hrow.
    apply lookup_ge_None in Hrow. rewrite Hrow. reflexivity.
Qed.

Lemma extract_points_Ok (model_name : string) (rows : list Row)
    (vals : list pyfloat) (acc : list ForecastPoint) :
  (λ row, row_num row !! model_name) <$> rows = Some <$> vals →
  extract_points model_name acc rows
    = Ok (acc ++ zip_with (λ row v, {| forecast_date := strftime_ymd (row_ds row);
                                       forecast_value := v |}) rows vals).
Proof.
  revert vals acc. induction rows as [|row rows IH]; intros vals acc Hvals.
  - simpl. rewrite app_nil_r. reflexivity.
  - destruct vals as [|v vals]; [discriminate|].
    simpl in Hvals. injection Hvals as Hv Hrest.
    simpl. unfold row_getitem. rewrite Hv. simpl.
    rewrite (IH vals _ Hrest), <- app_assoc. reflexivity.
Qed.

Lemma upper_key_inj (a b : Z) :
  "upper_" +:+ pretty a = "upper_" +:+ pretty b → a = b.
Proof. simpl. intros [= Heq]. apply (inj pretty). exact Heq. Qed.

Lemma lower_key_inj (a b : Z) :
  "lower_" +:+ pretty a = "lower_" +:+ pretty b → a = b.
Proof. simpl. intros [= Heq]. apply (inj pretty). exact Heq. Qed.

Lemma upper_lower_key_ne (a b : Z) :
  "upper_" +:+ pretty a ≠ "lower_" +:+ pretty b.
Proof. simpl. discriminate. Qed.

(** The second loop, on a frame whose requested levels have both interval
    columns or neither: it raises nothing, leaves every other key alone and
    stores both columns of each level that has them. *)
Lemma extract_intervals_Ok (df : DataFrame) (model_name : string)
    (levels : list Z) (ci : gmap string (list pyfloat)) :
  Forall (level_columns_coherent df model_name) levels →
  ∃ ci', extract_intervals df model_name ci levels = Ok ci' ∧
    (∀ key,
       (∀ level, level ∈ levels →
          is_Some (df_num df !! (model_name +:+ "-hi-" +:+ pretty level)) →
          key ≠ "upper_" +:+ pretty level ∧ key ≠ "lower_" +:+ pretty level) →
       ci' !! key = ci !! key) ∧
    (∀ level uppers lowers, level ∈ levels →
       df_num df !! (model_name +:+ "-hi-" +:+ pretty level) = Some uppers →
       df_num df !! (model_name +:+ "-lo-" +:+ pretty level) = Some lowers →
       ci' !! ("upper_" +:+ pretty level) = Some uppers ∧
       ci' !! ("lower_" +:+ pretty level) = Some lowers).
Proof.
  revert ci. induction levels as [|l levels IH]; intros ci Hcoh.
  - exists ci. split; [reflexivity|]. split; [reflexivity|].
    intros level ? ? Hin. inversion Hin.
  - inversion Hcoh as [|? ? Hl Hrest]; subst.
    cbn [extract_intervals]. case_bool_decide as Hdom.
    + apply elem_of_dom in Hdom. pose proof Hdom as Hhi.
      apply Hl in Hdom. destruct Hhi as [us Hus], Hdom as [ls Hls].
      unfold df_getitem. rewrite Hus, Hls. simpl.
      destruct (IH (<["lower_" +:+ pretty l := ls]>
                      (<["upper_" +:+ pretty l := us]> ci)) Hrest)
        as (ci' & Hrun & Hframe & Hset).
      exists ci'. split; [exact Hrun|]. split.
      * intros key Hkey. rewrite Hframe.
        -- destruct (Hkey l) as [Hu Hlo]; [left | eauto |].
           rewrite !lookup_insert_ne by congruence. reflexivity.
        -- intros level Hin. apply Hkey. right. exact Hin.
      * intros level uppers lowers Hin Hu Hlo.
        destruct (decide (level ∈ levels)) as [Hin'|Hnin]; [eauto|].
        apply elem_of_cons in Hin as [->|Hin]; [|contradiction].
        assert (uppers = us) by congruence. assert (lowers = ls) by congruence.
        subst. rewrite !Hframe.
        -- rewrite lookup_insert_ne by (apply not_eq_sym, upper_lower_key_ne).
           rewrite !lookup_insert_eq. split; reflexivity.
        -- intros level Hlev _. split; [apply not_eq_sym, upper_lower_key_ne|].
           intros Heq. apply lower_key_inj in Heq. congruence.
        -- intros level Hlev _. split; [|apply upper_lower_key_ne].
           intros Heq. apply upper_key_inj in Heq. congruence.
    + destruct (IH ci Hrest) as (ci' & Hrun & Hframe & Hset).
      exists ci'. split; [exact Hrun|]. split.
      * intros key Hkey. apply Hframe. intros level Hin. apply Hkey.
        right. exact Hin.
      * intros level uppers lowers Hin Hu Hlo.
        apply elem_of_cons in Hin as [->|Hin]; [|eauto].
        exfalso. apply Hdom. apply elem_of_dom. eauto.
Qed.

(** C8.  On a forecast frame that has the model's column, and for each
    requested level both interval columns or neither, the extraction raises
    nothing.  The points are the rows in order, with the model's estimate.
    A level without interval columns has neither [upper_L] nor [lower_L] in
    the mapping; a level with them has both, each the whole column, one
    bound per forecast point in row order. *)
Theorem _extract_forecast_data_levels (forecasts_df : DataFrame)
    (model_name : string) (confidence_levels : list Z) (estimates : list pyfloat) :
  df_rectangular forecasts_df →
  df_num forecasts_df !! model_name = Some estimates →
  Forall (level_columns_coherent forecasts_df model_name) confidence_levels →
  ∃ forecast_points confidence_intervals,
    _extract_forecast_data forecasts_df model_name confidence_levels
      = Ok (forecast_points, confidence_intervals) ∧
    forecast_value <$> forecast_points = estimates ∧
    forecast_date <$> forecast_points = strftime_ymd <$> df_ds forecasts_df ∧
    ∀ level, level ∈ confidence_levels →
      (df_num forecasts_df !! (model_name +:+ "-hi-" +:+ pretty level) = None →
       confidence_intervals !! ("upper_" +:+ pretty level) = None ∧
       confidence_intervals !! ("lower_" +:+ pretty level) = None) ∧
      (∀ uppers lowers,
         df_num forecasts_df !! (model_name +:+ "-hi-" +:+ pretty level)
           = Some uppers →
         df_num forecasts_df !! (model_name +:+ "-lo-" +:+ pretty level)
           = Some lowers →
         confidence_intervals !! ("upper_" +:+ pretty level) = Some uppers ∧
         confidence_intervals !! ("lower_" +:+ pretty level) = Some lowers ∧
         length uppers = length forecast_points ∧
         length lowers = length forecast_points).
Proof.
  intros Hrect Hmodel Hcoh. unfold _extract_forecast_data.
  pose proof (Hrect _ _ Hmodel) as Hlen. simpl in Hlen.
  rewrite (extract_points_Ok model_name _ estimates [])
    by (apply iterrows_column; assumption).
  destruct (extract_intervals_Ok forecasts_df model_name confidence_levels ∅ Hcoh)
    as (ci & Hrun & Hframe & Hset).
  simpl. rewrite Hrun. simpl.
  eexists _, ci. split; [reflexivity|].
  assert (length (iterrows forecasts_df) = length estimates) as Hrows
    by (rewrite length_iterrows; symmetry; exact Hlen).
  split; [|split].
  - apply list_eq. intros i. rewrite list_lookup_fmap, lookup_zip_with.
    destruct (estimates !! i) as [v|] eqn:Hv.
    + destruct (lookup_lt_is_Some_2 (iterrows forecasts_df) i) as [row Hrow].
      { rewrite Hrows. eapply lookup_lt_Some; eassumption. }
      rewrite Hrow. reflexivity.
    + destruct (iterrows forecasts_df !! i); reflexivity.
  - rewrite <- iterrows_ds. apply list_eq. intros i.
    rewrite !list_lookup_fmap, lookup_zip_with.
    destruct (iterrows forecasts_df !! i) as [row|] eqn:Hrow; [|reflexivity].
    destruct (lookup_lt_is_Some_2 estimates i) as [v Hv].
    { rewrite <- Hrows. eapply lookup_lt_Some; eassumption. }
    simpl. rewrite Hv. reflexivity.
  - intros level Hin. split.
    + intros Hnone. rewrite !Hframe, !lookup_empty; [split; reflexivity| |].
      * intros l Hl [x Hx]. split; [apply not_eq_sym, upper_lower_key_ne|].
        intros Heq. apply lower_key_inj in Heq. congruence.
      * intros l Hl [x Hx]. split; [|apply upper_lower_key_ne].
        intros Heq. apply upper_key_inj in Heq. congruence.
    + intros uppers lowers Hu Hlo.
      destruct (Hset level uppers lowers Hin Hu Hlo) as [-> ->].
      pose proof (Hrect _ _ Hu) as Hlu. pose proof (Hrect _ _ Hlo) as Hll.
      simpl in Hlu, Hll.
      rewrite length_zip_with, Hrows, Nat.min_id, Hlu, Hll, Hlen.
      repeat split; reflexivity.
Qed.

End extraction.

Lemma _extract_forecast_data_levels_witness :
  ∃ forecast_points confidence_intervals,
    _extract_forecast_data (ext := Iso.externals) forecast_frame "AutoETS" [95; 80]%Z
      = Ok (forecast_points, confidence_intervals) ∧
    confidence_intervals !! "upper_80" = None ∧
    confidence_intervals !! "upper_95" = Some [Fin 12; Fin 13] ∧
    confidence_intervals !! "lower_95" = Some [Fin 8; Fin 9].
Proof.
  destruct (_extract_forecast_data_levels (ext := Iso.externals)
              forecast_frame "AutoETS" [95; 80]%Z [Fin 10; Fin 11])
    as (points & ci & Hrun & _ & _ & Hlevels).
  - apply (bool_decide_unpack _). vm_compute. exact I.
  - vm_compute. reflexivity.
  - apply (bool_decide_unpack _). vm_compute. exact I.
  - exists points, ci. split; [exact Hrun|].
    destruct (Hlevels 80%Z) as [Hnone _]; [repeat constructor|].
    destruct (Hlevels 95%Z) as [_ Hsome]; [repeat constructor|].
    destruct Hnone as [Hu _]; [vm_compute; reflexivity|].
    destruct (Hsome [Fin 12; Fin 13] [Fin 8; Fin 9]) as (Hu95 & Hl95 & _);
      [vm_compute; reflexivity | vm_compute; reflexivity |].
    repeat split; assumption.
Defined.

(** ** The anomaly detector *)

Section detector.
Context {ext : Externals}.

Lemma detect_row_spec (request : AnomalyRequest) (lower_col upper_col : string)
    (anomalies : list AnomalyPoint) (bands : list ConfidenceBand) (row : Row) :
  is_Some (row_num row !! "y") →
  detect_row request lower_col upper_col (anomalies, bands) row
  = Ok (anomalies ++
          (if bounds_defined lower_col upper_col row
              && strictly_outside lower_col upper_col row
           then [flagged_point request lower_col upper_col row] else []),
        bands ++
          (if bounds_defined lower_col upper_col row
              && showConfidenceBands request
           then [band_of lower_col upper_col row] else [])).
Proof.
  intros [v Hv].
  unfold detect_row, row_getitem, bounds_defined, strictly_outside,
    flagged_point, band_of, half_range_deviation, row_value, row_lower,
    row_upper, fgt.
  rewrite Hv. simpl.
  destruct (negb (isnan (default NaN (row_num row !! lower_col)))
            && negb (isnan (default NaN (row_num row !! upper_col)))); simpl.
  - destruct (flt v (default NaN (row_num row !! lower_col))
              || flt (default NaN (row_num row !! upper_col)) v);
      destruct (showConfidenceBands request); simpl;
      rewrite ?app_nil_r; reflexivity.
  - rewrite !app_nil_r. reflexivity.
Qed.

Lemma detect_rows_spec (request : AnomalyRequest) (lower_col upper_col : string)
    (rows : list Row) (anomalies : list AnomalyPoint)
    (bands : list ConfidenceBand) :
  Forall (λ row, is_Some (row_num row !! "y")) rows →
  detect_rows request lower_col upper_col (anomalies, bands) rows
  = Ok (anomalies ++
          (flagged_point request lower_col upper_col <$>
             filter (λ row, bounds_defined lower_col upper_col row
                            && strictly_outside lower_col upper_col row) rows),
        bands ++
          (band_of lower_col upper_col <$>
             filter (λ row, bounds_defined lower_col upper_col row
                            && showConfidenceBands request) rows)).
Proof.
  intros Hrows. revert anomalies bands.
  induction Hrows as [|row rows Hy _ IH]; intros anomalies bands.
  - simpl. rewrite !app_nil_r. reflexivity.
  - cbn [detect_rows]. rewrite detect_row_spec by exact Hy. simpl.
    rewrite IH, <- !app_assoc, !filter_cons.
    destruct (bounds_defined lower_col upper_col row
              && strictly_outside lower_col upper_col row);
      destruct (bounds_defined lower_col upper_col row
                && showConfidenceBands request); reflexivity.
Qed.

Lemma parse_dates_length (data : list DataPoint) (ts : list Timestamp) :
  parse_dates data = inr ts → length ts = length data.
Proof.
  intros Hp. apply parse_dates_inr in Hp. symmetry.
  eapply Forall2_length; eassumption.
Qed.

Lemma prediction_bounds_rows (request : AnomalyRequest) (df : DataFrame)
    (lower_col upper_col : string) :
  prediction_bounds request = Ok (df, lower_col, upper_col) →
  ∃ (values : list pyfloat) (window : nat) (z_score : pyfloat),
    validate_data (data request) = Ok () ∧
    values ≡ₚ value <$> data request ∧
    df_len df = length values ∧
    ∀ i row, iterrows df !! i = Some row →
      ∃ v, values !! i = Some v ∧
        row_num row !! "y" = Some v ∧
        row_num row !! lower_col
          = Some (fsub (mean_at values window i)
                       (fmul z_score (std_at values window i))) ∧
        row_num row !! upper_col
          = Some (fadd (mean_at values window i)
                       (fmul z_score (std_at values window i))).
Proof.
  unfold prediction_bounds.
  destruct (validate_data (data request)) as [[]|e] eqn:Hval; [|discriminate].
  cbn [mbind result_bind]. unfold prepare_dataframe.
  destruct (parse_dates (data request)) as [e|ts] eqn:Hp; [discriminate|].
  destruct (data request) as [|p0 rest] eqn:Hdata; [discriminate|].
  rewrite <- Hdata in *.
  cbn [mbind result_bind].
  destruct (SENSITIVITY_MAP !! sensitivity request) as [cl|]; [|discriminate].
  cbn [mbind result_bind].
  unfold df_getitem. cbn [df_num]. rewrite lookup_singleton_eq.
  cbn [mbind result_bind].
  set (rows := sort_values_ds (zip ts (value <$> data request))).
  set (values := rows.*2).
  set (window := Z.to_nat _).
  set (z_score := norm_ppf _).
  intros [= <- <- <-].
  exists values, window, z_score.
  assert (length values = length rows) as Hlv by (unfold values; apply length_fmap).
  split; [reflexivity|]. split; [|split].
  - unfold values, rows, sort_values_ds.
    rewrite merge_sort_Permutation, snd_zip; [reflexivity|].
    rewrite length_fmap, (parse_dates_length _ _ Hp). lia.
  - unfold df_len. cbn. rewrite length_fmap. symmetry. exact Hlv.
  - intros i row Hrow. apply lookup_iterrows in Hrow as [Hds Hnum].
    cbn [df_setitem df_ds df_num] in Hds, Hnum.
    assert (i < length values) as Hi.
    { rewrite Hlv, <- (length_fmap fst rows). eapply lookup_lt_Some; eassumption. }
    destruct (lookup_lt_is_Some_2 values i Hi) as [v Hv].
    exists v. split; [exact Hv|].
    rewrite !Hnum.
    assert (rolling_mean values window !! i = Some (mean_at values window i)) as Hm.
    { unfold rolling_mean. rewrite list_lookup_imap, Hv. reflexivity. }
    assert (rolling_std values window !! i = Some (std_at values window i)) as Hs.
    { unfold rolling_std. rewrite list_lookup_imap, Hv. reflexivity. }
    split; [|split].
    + rewrite !lookup_insert_ne by (simpl; discriminate).
      rewrite lookup_singleton_eq. simpl. exact Hv.
    + rewrite lookup_insert_ne by (simpl; discriminate).
      rewrite lookup_insert_eq. simpl.
      rewrite lookup_zip_with, Hm, list_lookup_fmap, Hs. reflexivity.
    + rewrite lookup_insert_eq. simpl.
      rewrite lookup_zip_with, Hm, list_lookup_fmap, Hs. reflexivity.
Qed.

Lemma validate_data_Ok_inv (data : list DataPoint) :
  validate_data data = Ok () →
  2 ≤ length data ∧ Forall finite_value data ∧
  ∃ ts, parse_dates data = inr ts.
Proof.
  unfold validate_data.
  destruct (length data <? 2) eqn:Hlen; [discriminate|].
  apply Nat.ltb_ge in Hlen.
  destruct (check_values data) as [[]|e] eqn:Hv; [|discriminate].
  apply check_values_Ok in Hv. cbn [mbind result_bind].
  destruct (parse_dates data) as [e|ts]; [discriminate|].
  intros _. eauto.
Qed.

Lemma prediction_bounds_Ok (request : AnomalyRequest) :
  validate_data (data request) = Ok () →
  is_Some (SENSITIVITY_MAP !! sensitivity request) →
  ∃ df lower_col upper_col,
    prediction_bounds request = Ok (df, lower_col, upper_col).
Proof.
  intros Hval [cl Hcl]. unfold prediction_bounds. rewrite Hval.
  destruct (validate_data_Ok_inv _ Hval) as (Hlen & _ & ts & Hp).
  cbn [mbind result_bind]. unfold prepare_dataframe. rewrite Hp.
  destruct (data request) as [|p0 rest] eqn:Hdata; [simpl in Hlen; lia|].
  cbn [mbind result_bind]. rewrite Hcl. cbn [mbind result_bind].
  unfold df_getitem. cbn [df_num]. rewrite lookup_singleton_eq.
  cbn [mbind result_bind]. eauto.
Qed.

Lemma detect_anomalies_spec (request : AnomalyRequest)
    (start_time end_time : pyfloat) (df : DataFrame)
    (lower_col upper_col : string) :
  prediction_bounds request = Ok (df, lower_col, upper_col) →
  ∃ resp, detect_anomalies request start_time end_time = Ok resp ∧
    anomalies resp
      = flagged_point request lower_col upper_col <$>
          filter (λ row, bounds_defined lower_col upper_col row
                         && strictly_outside lower_col upper_col row)
                 (iterrows df) ∧
    confidenceBands resp
      = (if showConfidenceBands request
         then Some (band_of lower_col upper_col <$>
                      filter (λ row, bounds_defined lower_col upper_col row
                                     && showConfidenceBands request)
                             (iterrows df))
         else None) ∧
    totalPoints resp = df_len df ∧
    anomalyCount resp = length (anomalies resp).
Proof.
  intros Hpb. unfold detect_anomalies. rewrite Hpb.
  cbn [mbind result_bind]. rewrite detect_rows_spec.
  - cbn [mbind result_bind app]. eexists. split; [reflexivity|].
    cbn. repeat split; reflexivity.
  - apply Forall_lookup. intros i row Hrow.
    destruct (prediction_bounds_rows _ _ _ _ Hpb)
      as (values & window & z & _ & _ & _ & Hrows).
    destruct (Hrows i row Hrow) as (v & _ & Hy & _). eauto.
Qed.

Lemma flt_fle_false (x y : pyfloat) : fle y x = true → flt x y = false.
Proof.
  destruct x as [a| | |], y as [b| | |]; simpl; try reflexivity; try discriminate.
  rewrite Qleb_le, Qltb_ge. tauto.
Qed.

Lemma feq_fle (x y : pyfloat) : feq x y = true → fle x y = true ∧ fle y x = true.
Proof.
  destruct x as [a| | |], y as [b| | |]; simpl; try discriminate; try tauto.
  rewrite Qeq_bool_true, !Qleb_le. intros Heq. rewrite Heq. split; apply Qle_refl.
Qed.

Lemma fle_trans (x y z : pyfloat) : fle x y = true → fle y z = true → fle x z = true.
Proof.
  destruct x as [a| | |], y as [b| | |], z as [c| | |]; simpl;
    try discriminate; try reflexivity.
  rewrite !Qleb_le. apply Qle_trans.
Qed.

Lemma strictly_outside_closed (lower_col upper_col : string) (row : Row) :
  fle (row_lower lower_col row) (row_value row) = true →
  fle (row_value row) (row_upper upper_col row) = true →
  strictly_outside lower_col upper_col row = false.
Proof.
  intros Hlo Hhi. unfold strictly_outside.
  rewrite (flt_fle_false _ _ Hlo), (flt_fle_false _ _ Hhi). reflexivity.
Qed.

(** C3.  Once the prediction bounds are computed the detector answers, and
    the anomalies it lists are, in row order, exactly the rows of
    [result_df] whose two bounds are defined and whose value is below the
    lower bound or above the upper one, each with the row's date, value and
    bounds.  The confidence bands, when asked for, are the rows whose bounds
    are defined.  So a value equal to a bound of an interval, or anywhere
    in the closed interval, is not flagged, and a row with a [nan] bound is
    neither flagged nor given a band. *)
Theorem detect_anomalies_flags (request : AnomalyRequest)
    (start_time end_time : pyfloat) (df : DataFrame)
    (lower_col upper_col : string) :
  prediction_bounds request = Ok (df, lower_col, upper_col) →
  ∃ resp, detect_anomalies request start_time end_time = Ok resp ∧
    (λ a, (anomaly_date a, anomaly_value a,
           lower (expectedRange a), upper (expectedRange a)))
        <$> anomalies resp
      = (λ row, (strftime_ymd (row_ds row), row_value row,
                 row_lower lower_col row, row_upper upper_col row))
        <$> filter (λ row, bounds_defined lower_col upper_col row
                           && (flt (row_value row) (row_lower lower_col row)
                               || fgt (row_value row) (row_upper upper_col row)))
                   (iterrows df) ∧
    confidenceBands resp
      = (if showConfidenceBands request
         then Some ((λ row, {| band_date := strftime_ymd (row_ds row);
                               band_lower := row_lower lower_col row;
                               band_upper := row_upper upper_col row |})
                    <$> filter (λ row, bounds_defined lower_col upper_col row)
                               (iterrows df))
         else None) ∧
    ∀ row, row ∈ iterrows df →
      ((feq (row_value row) (row_lower lower_col row) = true ∨
        feq (row_value row) (row_upper upper_col row) = true) →
       fle (row_lower lower_col row) (row_upper upper_col row) = true →
       flt (row_value row) (row_lower lower_col row)
       || fgt (row_value row) (row_upper upper_col row) = false) ∧
      (fle (row_lower lower_col row) (row_value row) = true →
       fle (row_value row) (row_upper upper_col row) = true →
       flt (row_value row) (row_lower lower_col row)
       || fgt (row_value row) (row_upper upper_col row) = false) ∧
      (isnan (row_lower lower_col row) = true ∨
       isnan (row_upper upper_col row) = true →
       bounds_defined lower_col upper_col row = false).
Proof.
  intros Hpb.
  destruct (detect_anomalies_spec request start_time end_time _ _ _ Hpb)
    as (resp & Hrun & Han & Hbands & _).
  exists resp. split; [exact Hrun|]. split; [|split].
  - rewrite Han, <- list_fmap_compose. reflexivity.
  - rewrite Hbands. destruct (showConfidenceBands request); [|reflexivity].
    f_equal. f_equal. apply list_filter_iff. intros row.
    rewrite andb_true_r. reflexivity.
  - intros row _. split; [|split].
    + intros Heq Hle. apply (strictly_outside_closed lower_col upper_col row).
      * destruct Heq as [Heq|Heq]; apply feq_fle in Heq as [H1 H2]; [exact H2|].
        eapply fle_trans; eassumption.
      * destruct Heq as [Heq|Heq]; apply feq_fle in Heq as [H1 H2]; [|exact H1].
        eapply fle_trans; eassumption.
    + apply strictly_outside_closed.
    + unfold bounds_defined. intros [->| ->]; [reflexivity|].
      apply andb_false_r.
Qed.

(** C4, as the code has it.  Two runs of the detector on one request raise
    the same exception or both answer, and then agree on the anomalies, the
    counts, the rate, the bands, the model and the sensitivity.  The
    computation time of a run is its own clock difference in milliseconds:
    the two answers are equal when their computation times are. *)
Theorem detect_anomalies_repeatable (request : AnomalyRequest)
    (start1 end1 start2 end2 : pyfloat) :
  match detect_anomalies request start1 end1,
        detect_anomalies request start2 end2 with
  | Ok r1, Ok r2 =>
      anomalies r1 = anomalies r2 ∧
      totalPoints r1 = totalPoints r2 ∧
      anomalyCount r1 = anomalyCount r2 ∧
      anomalyRate r1 = anomalyRate r2 ∧
      confidenceBands r1 = confidenceBands r2 ∧
      modelUsed r1 = modelUsed r2 ∧
      sensitivity_used r1 = sensitivity_used r2 ∧
      computationTimeMs r1 = fmul (fsub end1 start1) (Fin 1000) ∧
      computationTimeMs r2 = fmul (fsub end2 start2) (Fin 1000) ∧
      (computationTimeMs r1 = computationTimeMs r2 → r1 = r2)
  | Raise e1, Raise e2 => e1 = e2
  | _, _ => False
  end.
Proof.
  unfold detect_anomalies.
  destruct (prediction_bounds request) as [[[df lower_col] upper_col]|e];
    cbn [mbind result_bind]; [|reflexivity].
  destruct (detect_rows request lower_col upper_col ([], []) (iterrows df))
    as [[found bands]|e]; cbn [mbind result_bind]; [|reflexivity].
  cbn. repeat split; try reflexivity.
  intros ->. reflexivity.
Qed.



Lemma window_mean_shape (obs : list Q) :
  window_mean obs = NaN ∨ ∃ q, window_mean obs = Fin q.
Proof. unfold window_mean. destruct (1 <=? length obs); eauto. Qed.

Lemma validated_values_finite (data : list DataPoint) (values : list pyfloat) :
  validate_data data = Ok () → values ≡ₚ value <$> data →
  Forall (λ v, ∃ q, v = Fin q) values.
Proof.
  intros Hval Hperm. rewrite Hperm. apply Forall_fmap.
  destruct (validate_data_Ok_inv _ Hval) as (_ & Hfin & _). exact Hfin.
Qed.


Lemma Qsum_replicate (n : nat) (c : Q) :
  (Qsum (replicate n c) == Q_of_nat n * c)%Q.
Proof.
  induction n as [|n IH].
  - simpl. unfold Q_of_nat. simpl. ring.
  - cbn [replicate Qsum foldr]. fold (Qsum (replicate n c)). rewrite IH.
    unfold Q_of_nat. rewrite Nat2Z.inj_succ, <- Z.add_1_r, inject_Z_plus. ring.
Qed.

Lemma observations_constant (c : Q) (w : list pyfloat) :
  Forall (λ v, v = Fin c) w → observations w = replicate (length w) c.
Proof.
  induction 1 as [|v w -> _ IH]; [reflexivity|].
  unfold observations in *. cbn. rewrite IH. reflexivity.
Qed.

Lemma window_at_constant (c : Q) (values : list pyfloat) (window i : nat) :
  Forall (λ v, v = Fin c) values →
  Forall (λ v, v = Fin c) (window_at values window i).
Proof.
  intros Hall. unfold window_at.
  destruct (window_bounds (length values) window i) as [s e].
  apply Forall_take, Forall_drop. exact Hall.
Qed.

Lemma Q_of_nat_pos (n : nat) : 1 ≤ n → (0 < Q_of_nat n)%Q.
Proof.
  intros Hn. unfold Q_of_nat. change 0%Q with (inject_Z 0).
  rewrite <- Zlt_Qlt. lia.
Qed.

Lemma mean_at_constant (c : Q) (values : list pyfloat) (window i : nat) :
  Forall (λ v, v = Fin c) values →
  mean_at values window i = NaN ∨
  ∃ m, (m == c)%Q ∧ mean_at values window i = Fin m.
Proof.
  intros Hall. unfold mean_at.
  rewrite (observations_constant c) by (apply window_at_constant; exact Hall).
  set (n := length (window_at values window i)).
  unfold window_mean. rewrite length_replicate.
  destruct (Nat.leb_spec 1 n) as [Hn|Hn]; [right | left; reflexivity].
  eexists. split; [|reflexivity].
  rewrite Qsum_replicate. pose proof (Q_of_nat_pos n Hn). field. lra.
Qed.

Section constant_series.

Hypothesis sqrt_Q_zero : ∀ q : Q, (q == 0)%Q → (sqrt_Q q == 0)%Q.

Lemma std_at_constant (c : Q) (values : list pyfloat) (window i : nat) :
  Forall (λ v, v = Fin c) values →
  std_at values window i = NaN ∨
  ∃ s, (s == 0)%Q ∧ std_at values window i = Fin s.
Proof.
  intros Hall. unfold std_at.
  rewrite (observations_constant c) by (apply window_at_constant; exact Hall).
  set (n := length (window_at values window i)).
  unfold window_var. rewrite length_replicate.
  destruct (Nat.leb_spec 1 n) as [Hn|Hn]; [|left; reflexivity].
  destruct (Nat.ltb_spec 1 n) as [Hn'|Hn']; [right | left; reflexivity].
  cbn [andb zsqrt].
  set (var := (Qsum _ / _)%Q).
  assert (var == 0)%Q as Hvar.
  { unfold var. rewrite fmap_replicate, !Qsum_replicate.
    pose proof (Q_of_nat_pos n Hn). pose proof (Q_of_nat_pos (n - 1) ltac:(lia)).
    field. split; lra. }
  destruct (Qltb var 0); eexists; (split; [|reflexivity]).
  - reflexivity.
  - apply sqrt_Q_zero. exact Hvar.
Qed.

Lemma margin_constant (z s : pyfloat) :
  s = NaN ∨ (∃ q, (q == 0)%Q ∧ s = Fin q) →
  fmul z s = NaN ∨ ∃ e, (e == 0)%Q ∧ fmul z s = Fin e.
Proof.
  intros [->|(q & Hq & ->)].
  - left. destruct z; reflexivity.
  - destruct z as [zq| | |]; cbn [fmul].
    + right. eexists. split; [|reflexivity]. rewrite Hq. ring.
    + left. unfold scale_inf. apply Qeq_alt in Hq. rewrite Hq. reflexivity.
    + left. unfold scale_inf. apply Qeq_alt in Hq. rewrite Hq. reflexivity.
    + left. reflexivity.
Qed.

Lemma constant_not_outside (c : Q) (m zs : pyfloat) :
  m = NaN ∨ (∃ q, (q == c)%Q ∧ m = Fin q) →
  zs = NaN ∨ (∃ e, (e == 0)%Q ∧ zs = Fin e) →
  flt (Fin c) (fsub m zs) || flt (fadd m zs) (Fin c) = false.
Proof.
  intros [->|(q & Hq & ->)] [->|(e & He & ->)]; try reflexivity.
  unfold fsub. cbn [fneg fadd flt].
  apply orb_false_iff. rewrite !Qltb_ge. split; lra.
Qed.

Lemma zero_width_range (lower_bound upper_bound : pyfloat) :
  feq lower_bound upper_bound = true →
  fgt (fsub upper_bound lower_bound) (Fin 0) = false.
Proof.
  destruct lower_bound as [a| | |], upper_bound as [b| | |];
    try discriminate; try reflexivity.
  unfold fgt, fsub. cbn [feq fneg fadd flt].
  rewrite Qeq_bool_true, Qltb_ge. intros Heq. lra.
Qed.

Lemma filter_none {A} (P : A → Prop) `{!∀ x, Decision (P x)} (l : list A) :
  Forall (λ x, ¬ P x) l → filter P l = [].
Proof.
  induction 1 as [|x l Hx _ IH]; [reflexivity|].
  rewrite filter_cons_False by exact Hx. exact IH.
Qed.

(** C6.  With a square root that is zero at zero: on 25 points of value 50
    that pass validation, at a sensitivity of the map, the detector answers
    and reports no anomaly (count 0 of 25 points).  And whenever the loop
    appends an anomaly whose range has zero width, its deviation is 0: the
    division is not taken. *)
Theorem constant_series_no_anomalies (request : AnomalyRequest)
    (start_time end_time : pyfloat) :
  length (data request) = 25 →
  Forall (λ p, value p = Fin 50) (data request) →
  validate_data (data request) = Ok () →
  is_Some (SENSITIVITY_MAP !! sensitivity request) →
  (∃ resp, detect_anomalies request start_time end_time = Ok resp ∧
     anomalies resp = [] ∧ anomalyCount resp = 0 ∧ totalPoints resp = 25) ∧
  (∀ lower_col upper_col found bands row found' bands' a,
     detect_row request lower_col upper_col (found, bands) row
       = Ok (found', bands') →
     found' = found ++ [a] →
     feq (lower (expectedRange a)) (upper (expectedRange a)) = true →
     deviation a = Fin 0).
Proof.
  intros Hlen Hconst Hval Hsens. split.
  - destruct (prediction_bounds_Ok request Hval Hsens)
      as (df & lower_col & upper_col & Hpb).
    destruct (detect_anomalies_spec request start_time end_time _ _ _ Hpb)
      as (resp & Hrun & Han & _ & Htotal & Hcount).
    destruct (prediction_bounds_rows _ _ _ _ Hpb)
      as (values & window & z & _ & Hperm & Hdf & Hrows).
    assert (Forall (λ v, v = Fin 50) values) as Hvalues.
    { rewrite Hperm. apply Forall_fmap. exact Hconst. }
    assert (anomalies resp = []) as Hnone.
    { rewrite Han, filter_none; [reflexivity|].
      apply Forall_lookup. intros i row Hi.
      destruct (Hrows i row Hi) as (v & Hv & Hy & Hlo & Hhi).
      rewrite Forall_lookup in Hvalues. rewrite (Hvalues i v Hv) in Hy.
      intros Hflag. apply andb_True in Hflag as [_ Hout].
      apply Is_true_true in Hout. unfold strictly_outside in Hout.
      unfold row_value, row_lower, row_upper in Hout.
      rewrite Hy, Hlo, Hhi in Hout. cbn [default from_option id] in Hout.
      rewrite (constant_not_outside 50) in Hout; [discriminate| |].
      - apply mean_at_constant. apply Forall_lookup. exact Hvalues.
      - apply margin_constant, (std_at_constant 50).
        apply Forall_lookup. exact Hvalues. }
    exists resp. split; [exact Hrun|]. split; [exact Hnone|].
    split; [rewrite Hcount, Hnone; reflexivity|].
    rewrite Htotal, Hdf, Hperm, length_fmap. exact Hlen.
  - intros lower_col upper_col found bands row found' bands' a Hrow -> Hzero.
    destruct (row_num row !! "y") as [v|] eqn:Hy.
    2:{ unfold detect_row, row_getitem in Hrow. rewrite Hy in Hrow.
        discriminate. }
    rewrite detect_row_spec in Hrow by eauto.
    injection Hrow as Hfound _. apply app_inv_head in Hfound.
    destruct (bounds_defined lower_col upper_col row
              && strictly_outside lower_col upper_col row); [|discriminate].
    injection Hfound as <-. unfold flagged_point in *.
    cbn [deviation expectedRange lower upper] in *.
    unfold half_range_deviation. rewrite (zero_width_range _ _ Hzero).
    reflexivity.
Qed.

End constant_series.

End detector.

(** ** The detector on the sample requests *)

Lemma Iso_sqrt_zero (q : Q) : (q == 0)%Q → (Iso.sqrt q == 0)%Q.
Proof.
  unfold Qeq. simpl. intros Hq. unfold Iso.sqrt.
  replace (Qnum q) with 0%Z by lia. reflexivity.
Qed.

Lemma constant_series_no_anomalies_witness :
  ∃ resp, detect_anomalies (ext := Iso.externals) constant_request (Fin 0) (Fin 1) = Ok resp ∧
    anomalies resp = [] ∧ anomalyCount resp = 0 ∧ totalPoints resp = 25.
Proof.
  apply (constant_series_no_anomalies (ext := Iso.externals) Iso_sqrt_zero
           constant_request (Fin 0) (Fin 1)).
  - reflexivity.
  - apply Forall_fmap, Forall_forall. intros day _. reflexivity.
  - vm_compute. reflexivity.
  - eexists. vm_compute. reflexivity.
Defined.


(** C4, as the specification words it, fails: the same request run with
    clock readings 0 and 1, then 0 and 2, gives a computation time of 1000
    and of 2000 milliseconds, so the two answers differ. *)
Lemma detect_anomalies_clock_dependent :
  ∃ r1 r2,
    detect_anomalies (ext := Iso.externals) outlier_request (Fin 0) (Fin 1) = Ok r1 ∧
    detect_anomalies (ext := Iso.externals) outlier_request (Fin 0) (Fin 2) = Ok r2 ∧
    computationTimeMs r1 = Fin 1000 ∧
    computationTimeMs r2 = Fin 2000 ∧
    r1 ≠ r2.
Proof.
  eexists _, _. split; [vm_compute; reflexivity|].
  split; [vm_compute; reflexivity|].
  split; [reflexivity|]. split; [reflexivity|]. discriminate.
Qed.

Lemma detect_anomalies_flags_witness :
  ∃ df lower_col upper_col resp,
    prediction_bounds (ext := Iso.externals) outlier_request
      = Ok (df, lower_col, upper_col) ∧
    detect_anomalies (ext := Iso.externals) outlier_request (Fin 0) (Fin 1)
      = Ok resp ∧
    anomaly_date <$> anomalies resp = ["2024-01-15"] ∧
    anomaly_value <$> anomalies resp = [Fin 200].
Proof.
  destruct (prediction_bounds (ext := Iso.externals) outlier_request)
    as [[[df lower_col] upper_col]|e] eqn:Hpb;
    [|vm_compute in Hpb; discriminate].
  destruct (detect_anomalies_flags (ext := Iso.externals) outlier_request
              (Fin 0) (Fin 1) df lower_col upper_col Hpb)
    as (resp & Hrun & _).
  exists df, lower_col, upper_col, resp.
  split; [reflexivity|]. split; [exact Hrun|].
  vm_compute in Hrun. injection Hrun as <-. split; reflexivity.
Defined.

(** ** The prepared frame and the validator, in any order *)

Section prepare.
Context {ext : Externals}.

#[local] Instance ds_le_trans : Transitive ds_le.
Proof. intros a b c. unfold ds_le. lia. Qed.

#[local] Instance ds_le_total : Total ds_le.
Proof. intros a b. unfold ds_le. lia. Qed.

Lemma parse_dates_rows (data : list DataPoint) (ts : list Timestamp) :
  parse_dates data = inr ts →
  parsed_rows data (zip ts (value <$> data)) ∧
  (zip ts (value <$> data)).*1 = ts.
Proof.
  intros Hp. pose proof (parse_dates_length _ _ Hp) as Hlen.
  apply parse_dates_inr in Hp. unfold dates_parse_to, parsed_rows in *.
  split.
  - induction Hp as [|p t data ts Hpt _ IH]; [constructor|].
    cbn. constructor; [split; [exact Hpt | reflexivity]|]. apply IH.
    simpl in Hlen. lia.
  - apply fst_zip. rewrite length_fmap. lia.
Qed.

Lemma parsed_rows_unique (data : list DataPoint)
    (rows rows' : list (Timestamp * pyfloat)) :
  parsed_rows data rows → parsed_rows data rows' → rows = rows'.
Proof.
  unfold parsed_rows. intros H. revert rows'.
  induction H as [|p [t v] data rows [Ht Hv] _ IH]; intros rows' H';
    inversion H' as [|? [t' v'] ? rows'' [Ht' Hv'] Hrest]; subst; [reflexivity|].
  simpl in *. f_equal; [f_equal; congruence|]. apply IH. exact Hrest.
Qed.

Lemma parsed_rows_parse (data : list DataPoint)
    (rows : list (Timestamp * pyfloat)) :
  parsed_rows data rows →
  parse_dates data = inr rows.*1 ∧ zip rows.*1 (value <$> data) = rows.
Proof.
  intros H. assert (parse_dates data = inr rows.*1) as Hp.
  { apply parse_dates_inr. unfold dates_parse_to, parsed_rows in *.
    induction H as [|p r data rows [Ht _] _ IH]; cbn; constructor; assumption. }
  split; [exact Hp|].
  destruct (parse_dates_rows _ _ Hp) as [Hrows _].
  eapply parsed_rows_unique; eassumption.
Qed.

(** The frame of a list of rows. *)
Lemma prepare_dataframe_rows (data : list DataPoint) (unique_id : string)
    (rows : list (Timestamp * pyfloat)) :
  data ≠ [] → parsed_rows data rows →
  prepare_dataframe data unique_id
  = Ok {| df_unique_id := replicate (length (sort_values_ds rows)) unique_id;
          df_ds := (sort_values_ds rows).*1;
          df_num := {[ "y" := (sort_values_ds rows).*2 ]} |}.
Proof.
  intros Hne Hrows. destruct (parsed_rows_parse _ _ Hrows) as [Hp Hzip].
  unfold prepare_dataframe. rewrite Hp.
  destruct data as [|p data]; [contradiction|]. rewrite Hzip. reflexivity.
Qed.

Lemma sort_values_ds_length (rows : list (Timestamp * pyfloat)) :
  length (sort_values_ds rows) = length rows.
Proof.
  unfold sort_values_ds. apply Permutation_length, merge_sort_Permutation.
Qed.

(** X1.  When the list is not empty and every date parses, [prepare_dataframe]
    returns a frame with one row per point, the series identifier in every
    row and the values in the single column [y]; its rows are the parsed
    points rearranged (each value stays with its date) with the dates in
    ascending order, strictly ascending when the dates are distinct. *)
Theorem prepare_dataframe_sorted (data : list DataPoint) (unique_id : string)
    (ts : list Timestamp) :
  data ≠ [] → dates_parse_to data ts →
  ∃ df ys,
    prepare_dataframe data unique_id = Ok df ∧
    df_num df = {[ "y" := ys ]} ∧
    df_unique_id df = replicate (length data) unique_id ∧
    df_len df = length data ∧ length ys = length data ∧
    zip (df_ds df) ys ≡ₚ zip ts (value <$> data) ∧
    Sorted Z.le (df_ds df) ∧
    (NoDup ts → Sorted Z.lt (df_ds df)).
Proof.
  intros Hne Hts. apply parse_dates_inr in Hts.
  destruct (parse_dates_rows _ _ Hts) as [Hrows Hfst].
  set (rows := zip ts (value <$> data)) in *.
  pose proof (parsed_rows_parse _ _ Hrows) as [_ Hzip].
  rewrite (prepare_dataframe_rows data unique_id rows Hne Hrows).
  assert (length rows = length data) as Hlen.
  { symmetry. eapply Forall2_length. exact Hrows. }
  eexists _, _. split; [reflexivity|]. cbn [df_num df_unique_id df_ds df_len].
  assert (Sorted Z.le (sort_values_ds rows).*1) as Hsorted.
  { apply (Sorted_fmap fst ds_le); [intros x y Hxy; exact Hxy|].
    apply Sorted_merge_sort, _. }
  split; [reflexivity|]. split; [rewrite sort_values_ds_length, Hlen; reflexivity|].
  split; [unfold df_len; cbn [df_ds];
          rewrite length_fmap, sort_values_ds_length; exact Hlen|].
  split; [rewrite length_fmap, sort_values_ds_length; exact Hlen|].
  split; [|split; [exact Hsorted|]].
  - rewrite zip_fst_snd. apply merge_sort_Permutation.
  - intros Hnd.
    assert (NoDup (sort_values_ds rows).*1) as Hnd'.
    { unfold sort_values_ds. rewrite merge_sort_Permutation, Hfst. exact Hnd. }
    revert Hsorted Hnd'. generalize ((sort_values_ds rows).*1). intros l Hs Hn.
    apply Sorted_StronglySorted in Hs; [|intros x y z; lia].
    apply StronglySorted_Sorted.
    induction Hs as [|x l Hl IH Hall]; [constructor|].
    apply NoDup_cons in Hn as [Hx Hn]. constructor; [apply IH; exact Hn|].
    apply Forall_forall. intros y Hy. rewrite Forall_forall in Hall.
    specialize (Hall y Hy). assert (x ≠ y) by (intros ->; contradiction). lia.
Qed.



Lemma NoDup_fst_inj (rows : list (Timestamp * pyfloat)) (x y : Timestamp * pyfloat) :
  NoDup rows.*1 → x ∈ rows → y ∈ rows → x.1 = y.1 → x = y.
Proof.
  intros Hnd Hx Hy Heq.
  apply list_elem_of_lookup in Hx as [i Hi], Hy as [j Hj].
  assert (i = j) as ->.
  { eapply NoDup_lookup; [exact Hnd| |].
    - rewrite list_lookup_fmap, Hi. reflexivity.
    - rewrite list_lookup_fmap, Hj. simpl. congruence. }
  congruence.
Qed.

Lemma sort_values_ds_perm (rows rows' : list (Timestamp * pyfloat)) :
  rows' ≡ₚ rows → NoDup rows.*1 →
  sort_values_ds rows' = sort_values_ds rows.
Proof.
  intros Hperm Hnd. unfold sort_values_ds.
  apply (Sorted_unique_strong ds_le).
  - intros x y Hx Hy Hxy Hyx. unfold ds_le in *.
    apply (NoDup_fst_inj rows); [exact Hnd | | | lia].
    + rewrite merge_sort_Permutation, Hperm in Hx. exact Hx.
    + rewrite merge_sort_Permutation in Hy. exact Hy.
  - apply Sorted_merge_sort, _.
  - apply Sorted_merge_sort, _.
  - rewrite !merge_sort_Permutation. exact Hperm.
Qed.

Lemma prepare_dataframe_perm (data data' : list DataPoint)
    (unique_id : string) (rows : list (Timestamp * pyfloat)) :
  data' ≡ₚ data → data ≠ [] → parsed_rows data rows → NoDup rows.*1 →
  prepare_dataframe data' unique_id = prepare_dataframe data unique_id.
Proof.
  intros Hperm Hne Hrows Hnd.
  destruct (Permutation_Forall2 (symmetry Hperm) Hrows)
    as (rows' & Hperm' & Hrows').
  rewrite (prepare_dataframe_rows data unique_id rows Hne Hrows).
  rewrite (prepare_dataframe_rows data' unique_id rows'); [|  |exact Hrows'].
  - rewrite (sort_values_ds_perm rows rows'); [reflexivity| |exact Hnd].
    symmetry. exact Hperm'.
  - intros ->. apply Permutation_length in Hperm.
    destruct data; [contradiction | discriminate Hperm].
Qed.

(** X3.  When the dates are distinct, the prepared frame does not depend on the
    order in which the points are given: any rearrangement of the list
    gives the same frame. *)
Theorem prepare_dataframe_order (data data' : list DataPoint)
    (unique_id : string) (ts : list Timestamp) :
  data' ≡ₚ data → dates_parse_to data ts → NoDup ts →
  prepare_dataframe data' unique_id = prepare_dataframe data unique_id.
Proof.
  intros Hperm Hts Hnd.
  destruct data as [|p data].
  { apply Permutation_length in Hperm.
    destruct data'; [reflexivity | discriminate Hperm]. }
  apply parse_dates_inr in Hts.
  destruct (parse_dates_rows _ _ Hts) as [Hrows Hfst].
  eapply prepare_dataframe_perm; [exact Hperm | discriminate | exact Hrows|].
  rewrite Hfst. exact Hnd.
Qed.

Lemma validate_data_Ok_iff (data : list DataPoint) :
  validate_data data = Ok () ↔
  2 ≤ length data ∧ Forall finite_value data ∧
  ∃ ts, dates_parse_to data ts ∧ NoDup ts.
Proof.
  unfold validate_data.
  destruct (Nat.ltb_spec (length data) 2) as [Hlen|Hlen].
  { split; [discriminate | intros [? _]; lia]. }
  destruct (check_values_total data) as [Hv|[msg Hv]]; rewrite Hv;
    cbn [mbind result_bind].
  2:{ split; [discriminate|]. intros (_ & Hfin & _).
      apply check_values_Ok in Hfin. congruence. }
  apply check_values_Ok in Hv.
  destruct (parse_dates data) as [e|ts] eqn:Hp; cbn [mbind result_bind].
  { split; [discriminate|]. intros (_ & _ & ts & Hts & _).
    apply parse_dates_inr in Hts. congruence. }
  case_bool_decide as Hdup.
  - split; [discriminate|]. intros (_ & _ & ts' & Hts & Hnd).
    apply parse_dates_inr in Hts. assert (ts' = ts) by congruence. subst ts'.
    apply size_list_to_set_NoDup in Hnd. contradiction.
  - split; [|reflexivity]. intros _. split; [exact Hlen|]. split; [exact Hv|].
    exists ts. split; [apply parse_dates_inr; exact Hp|].
    apply size_list_to_set_NoDup.
    destruct (decide (length ts = size (list_to_set ts : gset Timestamp)));
      [assumption | contradiction].
Qed.

Lemma validate_data_perm (data data' : list DataPoint) :
  data' ≡ₚ data → validate_data data = Ok () → validate_data data' = Ok ().
Proof.
  intros Hperm Hok.
  apply validate_data_Ok_iff in Hok as (Hlen & Hfin & ts & Hts & Hnd).
  apply validate_data_Ok_iff. split; [rewrite Hperm; exact Hlen|].
  split; [rewrite Hperm; exact Hfin|].
  destruct (Permutation_Forall2 (symmetry Hperm) Hts) as (ts' & Hperm' & Hts').
  exists ts'. split; [exact Hts'|]. rewrite <- Hperm'. exact Hnd.
Qed.

(** X4.  Validation does not depend on the order of the points: a
    rearrangement of a list is accepted exactly when the list is, and is
    refused with a [ValueError] exactly when the list is. *)
Theorem validate_data_order (data data' : list DataPoint) :
  data' ≡ₚ data →
  (validate_data data' = Ok () ↔ validate_data data = Ok ()) ∧
  ((∃ msg, validate_data data' = Raise (ValueError msg)) ↔
   (∃ msg, validate_data data = Raise (ValueError msg))).
Proof.
  intros Hperm.
  assert (validate_data data' = Ok () ↔ validate_data data = Ok ()) as Hiff.
  { split; apply validate_data_perm; [symmetry|]; exact Hperm. }
  split; [exact Hiff|].
  assert (∀ d, validate_data d = Ok () ∨
               ∃ msg, validate_data d = Raise (ValueError msg)) as Htotal.
  { intros d. unfold validate_data.
    destruct (length d <? 2); [eauto|].
    destruct (check_values_total d) as [->|[msg ->]]; [|eauto].
    cbn [mbind result_bind].
    destruct (parse_dates d); cbn [mbind result_bind]; [eauto|].
    case_bool_decide; eauto. }
  split; intros [msg Hmsg].
  - destruct (Htotal data) as [Hok|Herr]; [|exact Herr].
    apply Hiff in Hok. congruence.
  - destruct (Htotal data') as [Hok|Herr]; [|exact Herr].
    apply Hiff in Hok. congruence.
Qed.
End prepare.

Lemma ordered_shuffled : ordered_series ≡ₚ shuffled_series.
Proof.
  symmetry. apply (Permutation_cons_append [jan_point 1 10; jan_point 2 20]).
Qed.

Lemma shuffled_dates_parse :
  dates_parse_to (ext := Iso.externals) shuffled_series shuffled_dates.
Proof. repeat constructor. Qed.

Lemma prepare_dataframe_sorted_witness :
  ∃ df ys,
    prepare_dataframe (ext := Iso.externals) shuffled_series "series_1" = Ok df ∧
    df_num df = {[ "y" := ys ]} ∧
    df_unique_id df = replicate (length shuffled_series) "series_1" ∧
    df_len df = length shuffled_series ∧ length ys = length shuffled_series ∧
    zip (df_ds df) ys ≡ₚ zip shuffled_dates (value <$> shuffled_series) ∧
    Sorted Z.le (df_ds df) ∧
    (NoDup shuffled_dates → Sorted Z.lt (df_ds df)).
Proof.
  apply (prepare_dataframe_sorted (ext := Iso.externals) shuffled_series
           "series_1" shuffled_dates).
  - discriminate.
  - exact shuffled_dates_parse.
Defined.

Lemma prepare_dataframe_order_witness :
  prepare_dataframe (ext := Iso.externals) ordered_series "series_1"
  = prepare_dataframe (ext := Iso.externals) shuffled_series "series_1".
Proof.
  apply (prepare_dataframe_order (ext := Iso.externals) shuffled_series
           ordered_series "series_1" shuffled_dates).
  - exact ordered_shuffled.
  - exact shuffled_dates_parse.
  - apply (bool_decide_unpack _). vm_compute. exact I.
Defined.

Lemma validate_data_order_witness :
  (validate_data (ext := Iso.externals) ordered_series = Ok () ↔
   validate_data (ext := Iso.externals) shuffled_series = Ok ()) ∧
  ((∃ msg, validate_data (ext := Iso.externals) ordered_series
           = Raise (ValueError msg)) ↔
   (∃ msg, validate_data (ext := Iso.externals) shuffled_series
           = Raise (ValueError msg))).
Proof.
  apply (validate_data_order (ext := Iso.externals) shuffled_series
           ordered_series).
  exact ordered_shuffled.
Defined.

(** ** The classes of the median gap *)

Section freq_more.
Context {ext : Externals}.

Lemma classify_gap_cases (g : Z) :
  (classify_gap g = "T" ↔ g < 3600000000000)%Z ∧
  (classify_gap g = "H" ↔ 3600000000000 ≤ g < 86400000000000)%Z ∧
  (classify_gap g = "D" ↔ 86400000000000 ≤ g < 2 * 86400000000000)%Z ∧
  (classify_gap g = "W" ↔ 2 * 86400000000000 ≤ g < 9 * 86400000000000)%Z ∧
  (classify_gap g = "M" ↔ 9 * 86400000000000 ≤ g < 33 * 86400000000000)%Z ∧
  (classify_gap g = "Q" ↔ 33 * 86400000000000 ≤ g < 101 * 86400000000000)%Z ∧
  (classify_gap g = "Y" ↔ 101 * 86400000000000 ≤ g)%Z.
Proof.
  unfold classify_gap. rewrite !total_seconds_lt. unfold td_days.
  repeat match goal with
         | |- context [(?a <? ?b)%Z] => destruct (Z.ltb_spec a b)
         | |- context [(?a <=? ?b)%Z] => destruct (Z.leb_spec a b)
         end;
    repeat split; intros; try discriminate; try reflexivity;
    Z.to_euclidean_division_equations; lia.
Qed.

(** X5.  A frame of fewer than two rows is read as daily.  Otherwise the code
    is decided by the median gap alone: below one hour [T], from one hour
    to below one day [H], from one day to below two days [D], from two to
    below nine days [W], from nine to below thirty-three days [M], from
    thirty-three to below one hundred and one days [Q], from there on
    [Y]. *)
Theorem infer_frequency_boundaries (df : DataFrame) :
  (df_len df < 2 → infer_frequency df = "D") ∧
  (2 ≤ df_len df →
   (infer_frequency df = "T" ↔ median_gap df < 3600000000000)%Z ∧
   (infer_frequency df = "H" ↔
      3600000000000 ≤ median_gap df < 86400000000000)%Z ∧
   (infer_frequency df = "D" ↔
      86400000000000 ≤ median_gap df < 2 * 86400000000000)%Z ∧
   (infer_frequency df = "W" ↔
      2 * 86400000000000 ≤ median_gap df < 9 * 86400000000000)%Z ∧
   (infer_frequency df = "M" ↔
      9 * 86400000000000 ≤ median_gap df < 33 * 86400000000000)%Z ∧
   (infer_frequency df = "Q" ↔
      33 * 86400000000000 ≤ median_gap df < 101 * 86400000000000)%Z ∧
   (infer_frequency df = "Y" ↔ 101 * 86400000000000 ≤ median_gap df)%Z).
Proof.
  unfold infer_frequency. split.
  - intros Hlen. apply Nat.ltb_lt in Hlen. rewrite Hlen. reflexivity.
  - intros Hlen. apply Nat.ltb_ge in Hlen. rewrite Hlen.
    apply classify_gap_cases.
Qed.

Lemma diff_length (l : list Z) : length (diff l) = length l - 1.
Proof.
  induction l as [|a [|b l] IH]; [reflexivity..|].
  cbn [diff length] in *. lia.
Qed.

Lemma merge_sort_sorted (l : list Z) : Sorted Z.le l → merge_sort Z.le l = l.
Proof.
  intros Hs. apply (Sorted_unique Z.le).
  - apply Sorted_merge_sort, _.
  - exact Hs.
  - apply merge_sort_Permutation.
Qed.

Lemma Sorted_replicate (n : nat) (g : Z) : Sorted Z.le (replicate n g).
Proof.
  induction n as [|n IH]; [constructor|].
  cbn. constructor; [exact IH|]. destruct n; constructor. lia.
Qed.

Lemma median_replicate (n : nat) (g : Z) : 1 ≤ n → median (replicate n g) = g.
Proof.
  intros Hn. unfold median. rewrite merge_sort_sorted by apply Sorted_replicate.
  rewrite length_replicate.
  assert (n / 2 < n) by (apply Nat.div_lt; lia).
  destruct (Nat.even n) eqn:He.
  - rewrite !lookup_total_replicate_2 by lia.
    replace (g + g)%Z with (g * 2)%Z by lia. apply Z.quot_mul. lia.
  - apply lookup_total_replicate_2. lia.
Qed.

(** X6.  On a frame of at least two rows whose consecutive dates are all the
    same gap apart, the median gap is that gap and the frequency is its
    class. *)
Theorem infer_frequency_regular (df : DataFrame) (g : Z) :
  2 ≤ df_len df → Forall (λ d, d = g) (diff (df_ds df)) →
  median_gap df = g ∧ infer_frequency df = classify_gap g.
Proof.
  intros Hlen Hreg.
  assert (median_gap df = g) as Hg.
  { unfold median_gap.
    assert (diff (df_ds df) = replicate (length (diff (df_ds df))) g) as ->.
    { apply list_eq. intros i. destruct (diff (df_ds df) !! i) as [d|] eqn:Hd.
      - rewrite Forall_lookup in Hreg. rewrite (Hreg i d Hd).
        symmetry. apply lookup_replicate_2. eapply lookup_lt_Some. exact Hd.
      - symmetry. apply lookup_replicate_None. apply lookup_ge_None in Hd. exact Hd. }
    apply median_replicate. rewrite diff_length.
    unfold df_len, Timestamp in Hlen. lia. }
  split; [exact Hg|]. unfold infer_frequency.
  apply Nat.ltb_ge in Hlen. rewrite Hlen, Hg. reflexivity.
Qed.

End freq_more.

Lemma infer_frequency_regular_witness :
  median_gap daily_frame = 86400000000000%Z ∧
  infer_frequency daily_frame = classify_gap 86400000000000.
Proof.
  apply (infer_frequency_regular daily_frame 86400000000000).
  - vm_compute. lia.
  - vm_compute. repeat constructor.
Defined.

(** ** The response of the detector *)

Section detector_more.
Context {ext : Externals}.

Lemma prediction_bounds_inv (request : AnomalyRequest) (df : DataFrame)
    (lower_col upper_col : string) :
  prediction_bounds request = Ok (df, lower_col, upper_col) →
  ∃ (df0 : DataFrame) (cl : Z) (values : list pyfloat),
    validate_data (data request) = Ok () ∧
    prepare_dataframe (data request) "series_1" = Ok df0 ∧
    SENSITIVITY_MAP !! sensitivity request = Some cl ∧
    df_ds df = df_ds df0 ∧
    values ≡ₚ value <$> data request ∧
    df_len df = length values ∧
    ∀ i row, iterrows df !! i = Some row →
      ∃ v, values !! i = Some v ∧
        row_num row !! "y" = Some v ∧
        row_num row !! lower_col
          = Some (fsub (mean_at values
                          (detector_window (resolved_season_length request df0)
                             (length values)) i)
                       (fmul (z_score_of cl)
                          (std_at values
                             (detector_window
                                (resolved_season_length request df0)
                                (length values)) i))) ∧
        row_num row !! upper_col
          = Some (fadd (mean_at values
                          (detector_window (resolved_season_length request df0)
                             (length values)) i)
                       (fmul (z_score_of cl)
                          (std_at values
                             (detector_window
                                (resolved_season_length request df0)
                                (length values)) i))).
Proof.
  unfold prediction_bounds.
  destruct (validate_data (data request)) as [[]|e] eqn:Hval; [|discriminate].
  cbn [mbind result_bind].
  destruct (prepare_dataframe (data request) "series_1") as [df0|e] eqn:Hprep;
    [|discriminate].
  pose proof Hprep as Hprep'. unfold prepare_dataframe in Hprep'.
  destruct (parse_dates (data request)) as [e|ts] eqn:Hp; [discriminate|].
  destruct (data request) as [|p0 rest] eqn:Hdata; [discriminate|].
  rewrite <- Hdata in *. injection Hprep' as <-.
  cbn [mbind result_bind].
  destruct (SENSITIVITY_MAP !! sensitivity request) as [cl|] eqn:Hcl;
    [|discriminate].
  cbn [mbind result_bind].
  unfold df_getitem. cbn [df_num]. rewrite lookup_singleton_eq.
  cbn [mbind result_bind].
  set (rows := sort_values_ds (zip ts (value <$> data request))) in *.
  set (values := rows.*2).
  intros [= <- <- <-].
  eexists _, cl, values.
  assert (length values = length rows) as Hlv by (unfold values; apply length_fmap).
  split; [reflexivity|]. split; [reflexivity|]. split; [reflexivity|].
  split; [reflexivity|]. split; [|split].
  - unfold values, rows, sort_values_ds.
    rewrite merge_sort_Permutation, snd_zip; [reflexivity|].
    rewrite length_fmap, (parse_dates_length _ _ Hp). lia.
  - unfold df_len. cbn. rewrite length_fmap. symmetry. exact Hlv.
  - intros i row Hrow. apply lookup_iterrows in Hrow as [Hds Hnum].
    cbn [df_setitem df_ds df_num] in Hds, Hnum.
    assert (i < length values) as Hi.
    { rewrite Hlv, <- (length_fmap fst rows). eapply lookup_lt_Some; eassumption. }
    destruct (lookup_lt_is_Some_2 values i Hi) as [v Hv].
    exists v. split; [exact Hv|].
    rewrite !Hnum.
    set (w := detector_window _ _).
    assert (rolling_mean values w !! i = Some (mean_at values w i)) as Hm.
    { unfold rolling_mean. rewrite list_lookup_imap, Hv. reflexivity. }
    assert (rolling_std values w !! i = Some (std_at values w i)) as Hs.
    { unfold rolling_std. rewrite list_lookup_imap, Hv. reflexivity. }
    split; [|split].
    + rewrite !lookup_insert_ne by (simpl; discriminate).
      rewrite lookup_singleton_eq. simpl. exact Hv.
    + rewrite lookup_insert_ne by (simpl; discriminate).
      rewrite lookup_insert_eq. cbn [mbind option_bind].
      change (zip_with fsub (rolling_mean values w)
                (fmul (z_score_of cl) <$> rolling_std values w) !! i
              = Some (fsub (mean_at values w i)
                        (fmul (z_score_of cl) (std_at values w i)))).
      rewrite lookup_zip_with, Hm, list_lookup_fmap, Hs. reflexivity.
    + rewrite lookup_insert_eq. cbn [mbind option_bind].
      change (zip_with fadd (rolling_mean values w)
                (fmul (z_score_of cl) <$> rolling_std values w) !! i
              = Some (fadd (mean_at values w i)
                        (fmul (z_score_of cl) (std_at values w i)))).
      rewrite lookup_zip_with, Hm, list_lookup_fmap, Hs. reflexivity.
Qed.

Lemma detect_anomalies_eq (request : AnomalyRequest)
    (start_time end_time : pyfloat) (df : DataFrame)
    (lower_col upper_col : string) :
  prediction_bounds request = Ok (df, lower_col, upper_col) →
  detect_anomalies request start_time end_time
  = Ok {| anomalies :=
            flagged_point request lower_col upper_col <$>
              filter (λ row, bounds_defined lower_col upper_col row
                             && strictly_outside lower_col upper_col row)
                     (iterrows df);
          totalPoints := df_len df;
          anomalyCount :=
            length (flagged_point request lower_col upper_col <$>
                      filter (λ row, bounds_defined lower_col upper_col row
                                     && strictly_outside lower_col upper_col row)
                             (iterrows df));
          anomalyRate :=
            if 0 <? df_len df
            then int_truediv
                   (Z.of_nat
                      (length (flagged_point request lower_col upper_col <$>
                                 filter (λ row,
                                           bounds_defined lower_col upper_col row
                                           && strictly_outside lower_col
                                                upper_col row)
                                        (iterrows df))))
                   (Z.of_nat (df_len df))
            else Fin 0;
          confidenceBands :=
            if showConfidenceBands request
            then Some (band_of lower_col upper_col <$>
                         filter (λ row, bounds_defined lower_col upper_col row
                                        && showConfidenceBands request)
                                (iterrows df))
            else None;
          modelUsed := "AutoETS";
          sensitivity_used := sensitivity request;
          computationTimeMs := fmul (fsub end_time start_time) (Fin 1000) |}.
Proof.
  intros Hpb. unfold detect_anomalies. rewrite Hpb.
  cbn [mbind result_bind]. rewrite detect_rows_spec.
  - reflexivity.
  - apply Forall_lookup. intros i row Hrow.
    destruct (prediction_bounds_rows _ _ _ _ Hpb)
      as (values & window & z & _ & _ & _ & Hrows).
    destruct (Hrows i row Hrow) as (v & _ & Hy & _). eauto.
Qed.

Lemma detect_anomalies_Ok_inv (request : AnomalyRequest)
    (start_time end_time : pyfloat) (resp : AnomalyResponse) :
  detect_anomalies request start_time end_time = Ok resp →
  ∃ df lower_col upper_col,
    prediction_bounds request = Ok (df, lower_col, upper_col).
Proof.
  unfold detect_anomalies.
  destruct (prediction_bounds request) as [[[df lower_col] upper_col]|e];
    [eauto | discriminate].
Qed.


End detector_more.

Section detector_response.
Context {ext : Externals}.

Lemma _determine_severity_values (d : pyfloat) (sensitivity : string) :
  _determine_severity d sensitivity ∈ ["low"; "medium"; "high"].
Proof.
  unfold _determine_severity.
  repeat match goal with
         | |- context [if ?b then _ else _] => destruct b
         end; repeat constructor.
Qed.

Lemma detect_anomalies_Ok_eq (request : AnomalyRequest)
    (start_time end_time : pyfloat) (resp : AnomalyResponse) :
  detect_anomalies request start_time end_time = Ok resp →
  ∃ df lower_col upper_col,
    prediction_bounds request = Ok (df, lower_col, upper_col) ∧
    df_len df = length (data request) ∧
    2 ≤ length (data request) ∧
    anomalies resp
      = flagged_point request lower_col upper_col <$>
          filter (λ row, bounds_defined lower_col upper_col row
                         && strictly_outside lower_col upper_col row)
                 (iterrows df) ∧
    confidenceBands resp
      = (if showConfidenceBands request
         then Some (band_of lower_col upper_col <$>
                      filter (λ row, bounds_defined lower_col upper_col row)
                             (iterrows df))
         else None) ∧
    totalPoints resp = df_len df ∧
    anomalyCount resp = length (anomalies resp) ∧
    anomalyRate resp
      = int_truediv (Z.of_nat (anomalyCount resp)) (Z.of_nat (totalPoints resp)) ∧
    modelUsed resp = "AutoETS" ∧
    sensitivity_used resp = sensitivity request ∧
    computationTimeMs resp = fmul (fsub end_time start_time) (Fin 1000).
Proof.
  intros Hrun.
  destruct (detect_anomalies_Ok_inv _ _ _ _ Hrun) as (df & lc & uc & Hpb).
  rewrite (detect_anomalies_eq _ _ _ _ _ _ Hpb) in Hrun. injection Hrun as <-.
  destruct (prediction_bounds_inv _ _ _ _ Hpb)
    as (df0 & cl & values & Hval & _ & _ & _ & Hperm & Hlen & _).
  destruct (validate_data_Ok_inv _ Hval) as (Hdata & _).
  assert (df_len df = length (data request)) as Hn
    by (rewrite Hlen, Hperm, length_fmap; reflexivity).
  exists df, lc, uc.
  cbn [anomalies totalPoints anomalyCount anomalyRate confidenceBands
         modelUsed sensitivity_used computationTimeMs].
  repeat split; try assumption.
  - destruct (showConfidenceBands request); [|reflexivity].
    f_equal. f_equal. apply list_filter_iff. intros row.
    rewrite andb_true_r. reflexivity.
  - destruct (Nat.ltb_spec 0 (df_len df)); [reflexivity | lia].
Qed.

(** X8.  In every response of the detector, [totalPoints] is the number of
    points of the request, [anomalyCount] is the length of [anomalies] and
    at most [totalPoints], [anomalyRate] is their quotient and lies in
    [[0, 1]], the model is reported as [AutoETS], the sensitivity is that
    of the request, the bands are absent exactly when the request turned
    them off, and there are at most [totalPoints] bands. *)
Theorem detect_anomalies_counts (request : AnomalyRequest)
    (start_time end_time : pyfloat) (resp : AnomalyResponse) :
  detect_anomalies request start_time end_time = Ok resp →
  totalPoints resp = length (data request) ∧
  anomalyCount resp = length (anomalies resp) ∧
  anomalyCount resp ≤ totalPoints resp ∧
  anomalyRate resp
    = Fin (Q_of_nat (anomalyCount resp) / Q_of_nat (totalPoints resp)) ∧
  fle (Fin 0) (anomalyRate resp) = true ∧
  fle (anomalyRate resp) (Fin 1) = true ∧
  modelUsed resp = "AutoETS" ∧
  sensitivity_used resp = sensitivity request ∧
  (confidenceBands resp = None ↔ showConfidenceBands request = false) ∧
  (∀ bands, confidenceBands resp = Some bands →
            length bands ≤ totalPoints resp).
Proof.
  intros Hrun.
  destruct (detect_anomalies_Ok_eq _ _ _ _ Hrun)
    as (df & lc & uc & _ & Hn & Hdata & Han & Hbands & Htotal & Hcount
        & Hrate & Hmodel & Hsens & _).
  assert (anomalyCount resp ≤ totalPoints resp) as Hle.
  { rewrite Hcount, Han, Htotal, length_fmap, <- length_iterrows.
    apply length_filter. }
  assert (anomalyRate resp
          = Fin (Q_of_nat (anomalyCount resp) / Q_of_nat (totalPoints resp)))
    as Hrate'.
  { rewrite Hrate. unfold int_truediv, float_of_Z, fdiv.
    replace (Qeq_bool (inject_Z (Z.of_nat (totalPoints resp))) 0) with false;
      [reflexivity|].
    symmetry. apply Qeq_bool_false.
    pose proof (Q_of_nat_pos (totalPoints resp) ltac:(lia)) as Hpos.
    unfold Q_of_nat in Hpos. lra. }
  pose proof (Q_of_nat_pos (totalPoints resp) ltac:(lia)) as Hpos.
  assert (0 <= Q_of_nat (anomalyCount resp) <= Q_of_nat (totalPoints resp))%Q
    as [Hc0 Hc1].
  { unfold Q_of_nat. change 0%Q with (inject_Z 0).
    rewrite <- !Zle_Qle. lia. }
  split; [rewrite Htotal; exact Hn|]. split; [exact Hcount|].
  split; [exact Hle|]. split; [exact Hrate'|].
  rewrite Hrate'. cbn [fle]. rewrite !Qleb_le.
  split; [apply Qle_shift_div_l; [exact Hpos | lra]|].
  split; [apply Qle_shift_div_r; [exact Hpos | lra]|].
  split; [exact Hmodel|]. split; [exact Hsens|].
  rewrite Hbands. split.
  - destruct (showConfidenceBands request); split; congruence.
  - intros bands Hb. destruct (showConfidenceBands request); [|discriminate].
    injection Hb as <-.
    rewrite Htotal, length_fmap, <- length_iterrows. apply length_filter.
Qed.

(** X9.  Every anomaly of a response has a finite value, bounds that are not
    [nan], a value below the lower or above the upper bound, the deviation
    computed from its own value and bounds, and the severity of that
    deviation at the sensitivity of the request, one of [low], [medium],
    [high]. *)
Theorem detect_anomalies_points (request : AnomalyRequest)
    (start_time end_time : pyfloat) (resp : AnomalyResponse) :
  detect_anomalies request start_time end_time = Ok resp →
  Forall (λ a,
            (∃ q, anomaly_value a = Fin q) ∧
            isnan (lower (expectedRange a)) = false ∧
            isnan (upper (expectedRange a)) = false ∧
            (flt (anomaly_value a) (lower (expectedRange a)) = true ∨
             fgt (anomaly_value a) (upper (expectedRange a)) = true) ∧
            deviation a
              = half_range_deviation (anomaly_value a)
                  (lower (expectedRange a)) (upper (expectedRange a)) ∧
            severity a = _determine_severity (deviation a) (sensitivity request) ∧
            severity a ∈ ["low"; "medium"; "high"])
         (anomalies resp).
Proof.
  intros Hrun.
  destruct (detect_anomalies_Ok_eq _ _ _ _ Hrun)
    as (df & lc & uc & Hpb & _ & _ & Han & _).
  rewrite Han. apply Forall_fmap, Forall_forall. intros row Hrow.
  apply list_elem_of_filter in Hrow as [Hflag Hin].
  apply list_elem_of_lookup in Hin as [i Hi].
  destruct (prediction_bounds_rows _ _ _ _ Hpb)
    as (values & window & z & Hval & Hperm & _ & Hrows).
  destruct (Hrows i row Hi) as (v & Hv & Hy & _).
  pose proof (validated_values_finite _ _ Hval Hperm) as Hfin.
  rewrite Forall_lookup in Hfin. destruct (Hfin i v Hv) as [q ->].
  apply andb_True in Hflag as [Hdef Hout].
  apply Is_true_true in Hdef, Hout.
  unfold bounds_defined in Hdef. apply andb_true_iff in Hdef as [Hlo Hhi].
  apply negb_true_iff in Hlo, Hhi.
  unfold strictly_outside in Hout. apply orb_true_iff in Hout.
  unfold compose, flagged_point. cbv beta.
  cbn [anomaly_value expectedRange lower upper deviation severity].
  assert (row_value row = Fin q) as Hrv by (unfold row_value; rewrite Hy; reflexivity).
  split; [eauto|]. split; [exact Hlo|]. split; [exact Hhi|].
  split; [exact Hout|]. split; [reflexivity|]. split; [reflexivity|].
  apply _determine_severity_values.
Qed.

(** X10.  When the bands are requested, every anomaly has a band: the dates
    and ranges of the anomalies are, in order, among the dates and ranges
    of the bands. *)
Theorem detect_anomalies_within_bands (request : AnomalyRequest)
    (start_time end_time : pyfloat) (resp : AnomalyResponse) :
  detect_anomalies request start_time end_time = Ok resp →
  showConfidenceBands request = true →
  ∃ bands, confidenceBands resp = Some bands ∧
    anomaly_range <$> anomalies resp `sublist_of` band_range <$> bands.
Proof.
  intros Hrun Hshow.
  destruct (detect_anomalies_Ok_eq _ _ _ _ Hrun)
    as (df & lc & uc & _ & _ & _ & Han & Hbands & _).
  rewrite Hshow in Hbands. eexists. split; [exact Hbands|].
  rewrite Han, <- !list_fmap_compose.
  rewrite (list_filter_iff _ (λ row, strictly_outside lc uc row
                                     ∧ bounds_defined lc uc row))
    by (intros row; rewrite andb_True; tauto).
  rewrite <- list_filter_filter.
  apply (fmap_sublist _). apply sublist_filter.
Qed.
End detector_response.

Lemma detect_anomalies_counts_witness :
  ∃ resp,
    detect_anomalies (ext := Iso.externals) outlier_request (Fin 0) (Fin 1)
      = Ok resp ∧
    totalPoints resp = 30 ∧ anomalyCount resp = 1 ∧
    anomalyRate resp = Fin (Q_of_nat 1 / Q_of_nat 30).
Proof.
  destruct (detect_anomalies (ext := Iso.externals) outlier_request (Fin 0)
              (Fin 1)) as [resp|e] eqn:Hrun; [|vm_compute in Hrun; discriminate].
  destruct (detect_anomalies_counts (ext := Iso.externals) outlier_request
              (Fin 0) (Fin 1) resp Hrun) as (Htotal & Hcount & _ & Hrate & _).
  exists resp. split; [reflexivity|].
  assert (anomalyCount resp = 1) as Hone
    by (vm_compute in Hrun; injection Hrun as <-; reflexivity).
  rewrite Hrate, Htotal, Hone. repeat split; reflexivity.
Defined.

Lemma detect_anomalies_points_witness :
  ∃ resp,
    detect_anomalies (ext := Iso.externals) outlier_request (Fin 0) (Fin 1)
      = Ok resp ∧
    length (anomalies resp) = 1 ∧
    Forall (λ a, severity a = _determine_severity (deviation a) "medium" ∧
                 severity a ∈ ["low"; "medium"; "high"])
           (anomalies resp).
Proof.
  destruct (detect_anomalies (ext := Iso.externals) outlier_request (Fin 0)
              (Fin 1)) as [resp|e] eqn:Hrun; [|vm_compute in Hrun; discriminate].
  pose proof (detect_anomalies_points (ext := Iso.externals) outlier_request
                (Fin 0) (Fin 1) resp Hrun) as Hpoints.
  exists resp. split; [reflexivity|]. split.
  - vm_compute in Hrun. injection Hrun as <-. reflexivity.
  - eapply Forall_impl; [exact Hpoints|].
    intros a (_ & _ & _ & _ & _ & Hsev & Hin). split; assumption.
Defined.

Lemma detect_anomalies_within_bands_witness :
  ∃ resp bands,
    detect_anomalies (ext := Iso.externals) outlier_request (Fin 0) (Fin 1)
      = Ok resp ∧
    confidenceBands resp = Some bands ∧
    anomaly_range <$> anomalies resp `sublist_of` band_range <$> bands.
Proof.
  destruct (detect_anomalies (ext := Iso.externals) outlier_request (Fin 0)
              (Fin 1)) as [resp|e] eqn:Hrun; [|vm_compute in Hrun; discriminate].
  destruct (detect_anomalies_within_bands (ext := Iso.externals)
              outlier_request (Fin 0) (Fin 1) resp Hrun eq_refl)
    as (bands & Hbands & Hsub).
  exists resp, bands. split; [reflexivity|]. split; assumption.
Defined.

Section detector_bounds.
Context {ext : Externals}.

Lemma std_at_shape (values : list pyfloat) (window i : nat) :
  std_at values window i = NaN ∨
  ∃ s, std_at values window i = Fin s ∧
       ((∀ q, 0 <= sqrt_Q q)%Q → (0 <= s)%Q).
Proof.
  unfold std_at, window_var.
  destruct (_ && _); [|left; reflexivity]. right. cbn [zsqrt].
  destruct (Qltb _ 0); eexists; (split; [reflexivity|]); intros Hsqrt.
  - apply Qle_refl.
  - apply Hsqrt.
Qed.

Lemma ordered_bounds (m z s : pyfloat) :
  m = NaN ∨ (∃ q, m = Fin q) →
  s = NaN ∨ (∃ q, s = Fin q ∧ (0 <= q)%Q) →
  fle (Fin 0) z = true →
  negb (isnan (fsub m (fmul z s))) && negb (isnan (fadd m (fmul z s))) = true →
  fle (fsub m (fmul z s)) (fadd m (fmul z s)) = true.
Proof.
  intros [->|[mq ->]] [->|(sq & -> & Hs)] Hz Hdef;
    try (destruct z; discriminate).
  destruct z as [zq| | |]; try discriminate.
  - cbn in Hz. apply Qleb_le in Hz. unfold fsub. cbn [fmul fneg fadd fle].
    apply Qleb_le. assert (0 <= zq * sq)%Q by (apply Qmult_le_0_compat; assumption).
    lra.
  - cbn [fmul] in *. unfold scale_inf in *.
    destruct (sq ?= 0)%Q eqn:Hcmp; [discriminate | | reflexivity].
    apply Qlt_alt in Hcmp. lra.
Qed.

Lemma row_bounds_ordered (request : AnomalyRequest) (df : DataFrame)
    (lower_col upper_col : string) (row : Row) :
  (∀ q, 0 <= sqrt_Q q)%Q →
  (∀ cl, SENSITIVITY_MAP !! sensitivity request = Some cl →
         fle (Fin 0) (z_score_of cl) = true) →
  prediction_bounds request = Ok (df, lower_col, upper_col) →
  row ∈ iterrows df →
  bounds_defined lower_col upper_col row = true →
  fle (row_lower lower_col row) (row_upper upper_col row) = true.
Proof.
  intros Hsqrt Hz Hpb Hin Hdef.
  apply list_elem_of_lookup in Hin as [i Hi].
  destruct (prediction_bounds_inv _ _ _ _ Hpb)
    as (df0 & cl & values & _ & _ & Hcl & _ & _ & _ & Hrows).
  destruct (Hrows i row Hi) as (v & _ & _ & Hlo & Hhi).
  unfold bounds_defined, row_lower, row_upper in *.
  rewrite Hlo, Hhi in *. cbn [default from_option id] in *.
  apply ordered_bounds; [apply window_mean_shape | | apply Hz; exact Hcl | exact Hdef].
  destruct (std_at_shape values
              (detector_window (resolved_season_length request df0)
                 (length values)) i) as [->|(s & -> & Hs)]; eauto.
Qed.

(** X11.  With a square root that is never negative and a critical value that
    is not negative at the level of the request, every expected range and
    every band of a response has its lower bound at or below its upper
    bound. *)
Theorem detect_anomalies_ranges_ordered (request : AnomalyRequest)
    (start_time end_time : pyfloat) (resp : AnomalyResponse) :
  (∀ q, 0 <= sqrt_Q q)%Q →
  (∀ cl, SENSITIVITY_MAP !! sensitivity request = Some cl →
         fle (Fin 0) (z_score_of cl) = true) →
  detect_anomalies request start_time end_time = Ok resp →
  Forall (λ a, fle (lower (expectedRange a)) (upper (expectedRange a)) = true)
         (anomalies resp) ∧
  (∀ bands, confidenceBands resp = Some bands →
     Forall (λ b, fle (band_lower b) (band_upper b) = true) bands).
Proof.
  intros Hsqrt Hz Hrun.
  destruct (detect_anomalies_Ok_eq _ _ _ _ Hrun)
    as (df & lc & uc & Hpb & _ & _ & Han & Hbands & _).
  split.
  - rewrite Han. apply Forall_fmap, Forall_forall. intros row Hrow.
    apply list_elem_of_filter in Hrow as [Hflag Hin].
    apply andb_True in Hflag as [Hdef _]. apply Is_true_true in Hdef.
    apply (row_bounds_ordered request df lc uc row); assumption.
  - intros bands Hb. rewrite Hbands in Hb.
    destruct (showConfidenceBands request); [|discriminate].
    injection Hb as <-. apply Forall_fmap, Forall_forall. intros row Hrow.
    apply list_elem_of_filter in Hrow as [Hdef Hin]. apply Is_true_true in Hdef.
    apply (row_bounds_ordered request df lc uc row); assumption.
Qed.








Lemma detect_rows_fields (r1 r2 : AnomalyRequest) (lower_col upper_col : string)
    (rows : list Row) (acc : list AnomalyPoint * list ConfidenceBand) :
  sensitivity r1 = sensitivity r2 →
  showConfidenceBands r1 = showConfidenceBands r2 →
  detect_rows r1 lower_col upper_col acc rows
  = detect_rows r2 lower_col upper_col acc rows.
Proof.
  intros Hs Hb. revert acc.
  induction rows as [|row rows IH]; intros acc; [reflexivity|].
  cbn [detect_rows].
  assert (detect_row r1 lower_col upper_col acc row
          = detect_row r2 lower_col upper_col acc row) as ->.
  { unfold detect_row. rewrite Hs, Hb. reflexivity. }
  destruct (detect_row r2 lower_col upper_col acc row); [|reflexivity].
  apply IH.
Qed.

(** X13.  The detector does not depend on the order of the points of a valid
    request: the same points in another order give the same result. *)
Theorem detect_anomalies_order (request : AnomalyRequest)
    (data' : list DataPoint) (start_time end_time : pyfloat) :
  data' ≡ₚ data request →
  validate_data (data request) = Ok () →
  detect_anomalies {| data := data';
                      sensitivity := sensitivity request;
                      seasonLength := seasonLength request;
                      showConfidenceBands := showConfidenceBands request |}
                   start_time end_time
  = detect_anomalies request start_time end_time.
Proof.
  destruct request as [d s sl sh].
  cbn [data sensitivity seasonLength showConfidenceBands].
  intros Hperm Hval.
  pose proof (validate_data_perm _ _ Hperm Hval) as Hval'.
  apply validate_data_Ok_iff in Hval as Hparts.
  destruct Hparts as (Hlen & _ & ts & Hts & Hnd).
  apply parse_dates_inr in Hts.
  destruct (parse_dates_rows _ _ Hts) as [Hrows Hfst].
  assert (prepare_dataframe data' "series_1"
          = prepare_dataframe d "series_1") as Hprep.
  { eapply prepare_dataframe_perm; [exact Hperm | | exact Hrows|].
    - intros Hnil. rewrite Hnil in Hlen. simpl in Hlen. lia.
    - rewrite Hfst. exact Hnd. }
  unfold detect_anomalies, prediction_bounds.
  cbn [data sensitivity seasonLength showConfidenceBands].
  rewrite Hval, Hval', Hprep. cbn [mbind result_bind].
  destruct (prepare_dataframe d "series_1") as [df|e]; [|reflexivity].
  cbn [mbind result_bind].
  destruct (SENSITIVITY_MAP !! s); [|reflexivity].
  cbn [mbind result_bind].
  destruct (df_getitem df "y") as [values|e]; [|reflexivity].
  cbn [mbind result_bind].
  rewrite (detect_rows_fields
             {| data := data'; sensitivity := s; seasonLength := sl;
                showConfidenceBands := sh |}
             {| data := d; sensitivity := s; seasonLength := sl;
                showConfidenceBands := sh |}) by reflexivity.
  reflexivity.
Qed.
End detector_bounds.

Lemma Iso_sqrt_nonneg (q : Q) : (0 <= Iso.sqrt q)%Q.
Proof.
  unfold Iso.sqrt. destruct (Qnum q <=? 0)%Z; [apply Qle_refl|].
  unfold Qle. cbn [Qnum Qden]. rewrite Z.mul_0_l, Z.mul_1_r.
  apply Z.sqrt_nonneg.
Qed.

Lemma detect_anomalies_ranges_ordered_witness :
  ∃ resp,
    detect_anomalies (ext := Iso.externals) outlier_request (Fin 0) (Fin 1)
      = Ok resp ∧
    Forall (λ a, fle (lower (expectedRange a)) (upper (expectedRange a)) = true)
           (anomalies resp) ∧
    (∀ bands, confidenceBands resp = Some bands →
       Forall (λ b, fle (band_lower b) (band_upper b) = true) bands).
Proof.
  destruct (detect_anomalies (ext := Iso.externals) outlier_request (Fin 0)
              (Fin 1)) as [resp|e] eqn:Hrun; [|vm_compute in Hrun; discriminate].
  exists resp. split; [reflexivity|].
  apply (detect_anomalies_ranges_ordered (ext := Iso.externals)
           outlier_request (Fin 0) (Fin 1) resp).
  - exact Iso_sqrt_nonneg.
  - intros cl Hcl. vm_compute in Hcl. injection Hcl as <-.
    vm_compute. reflexivity.
  - exact Hrun.
Defined.


Lemma detect_anomalies_order_witness :
  detect_anomalies (ext := Iso.externals)
    {| data := ordered_series;
       sensitivity := "medium";
       seasonLength := None;
       showConfidenceBands := true |} (Fin 0) (Fin 1)
  = detect_anomalies (ext := Iso.externals) shuffled_request (Fin 0) (Fin 1).
Proof.
  apply (detect_anomalies_order (ext := Iso.externals) shuffled_request
           ordered_series (Fin 0) (Fin 1)).
  - exact ordered_shuffled.
  - vm_compute. reflexivity.
Defined.

(** ** Severity across sensitivities *)

Section severity_more.
Context {ext : Externals}.

(** X14.  For one deviation the severity never drops as the sensitivity goes
    from [low] to [medium] to [high]; every sensitivity other than [low]
    and [medium] is read as [high]; at every sensitivity a deviation of at
    most 1 is [low], a deviation above 3 is [high], and [nan] is [low]. *)
Theorem _determine_severity_across_sensitivities (deviation : pyfloat)
    (sensitivity : string) :
  severity_rank (_determine_severity deviation "low")
    ≤ severity_rank (_determine_severity deviation "medium") ∧
  severity_rank (_determine_severity deviation "medium")
    ≤ severity_rank (_determine_severity deviation "high") ∧
  (sensitivity ∉ ["low"; "medium"] →
   _determine_severity deviation sensitivity
   = _determine_severity deviation "high") ∧
  (fle deviation (Fin 1) = true →
   _determine_severity deviation sensitivity = "low") ∧
  (fgt deviation (Fin 3) = true →
   _determine_severity deviation sensitivity = "high") ∧
  _determine_severity NaN sensitivity = "low".
Proof.
  assert (∀ d, _determine_severity d "low"
               = if fgt d (Fin 3) then "high"
                 else if fgt d (Fin 2) then "medium" else "low") as Hlow
    by reflexivity.
  assert (∀ d, _determine_severity d "medium"
               = if fgt d (Fin 2) then "high"
                 else if fgt d (Fin (3 # 2)) then "medium" else "low") as Hmed
    by reflexivity.
  assert (∀ d, _determine_severity d "high"
               = if fgt d (Fin (3 # 2)) then "high"
                 else if fgt d (Fin 1) then "medium" else "low") as Hhigh
    by reflexivity.
  split; [|split; [|split; [|split; [|split]]]].
  - rewrite Hlow, Hmed. destruct deviation as [q| | |];
      [|vm_compute; lia..].
    repeat match goal with
           | |- context [fgt (Fin q) (Fin ?c)] =>
               let E := fresh "E" in
               destruct (fgt (Fin q) (Fin c)) eqn:E;
               [apply fgt_Fin in E | apply fgt_Fin_false in E]
           end;
      first [vm_compute; lia | exfalso; lra].
  - rewrite Hmed, Hhigh. destruct deviation as [q| | |];
      [|vm_compute; lia..].
    repeat match goal with
           | |- context [fgt (Fin q) (Fin ?c)] =>
               let E := fresh "E" in
               destruct (fgt (Fin q) (Fin c)) eqn:E;
               [apply fgt_Fin in E | apply fgt_Fin_false in E]
           end;
      first [vm_compute; lia | exfalso; lra].
  - intros Hs. rewrite Hhigh. unfold _determine_severity.
    rewrite !bool_decide_eq_false_2; [reflexivity|..];
      intros ->; apply Hs; repeat constructor.
  - intros Hle. unfold _determine_severity.
    destruct deviation as [q| | |]; try discriminate.
    + apply Qleb_le in Hle.
      repeat match goal with
             | |- context [fgt (Fin q) (Fin ?c)] =>
                 let E := fresh "E" in
                 destruct (fgt (Fin q) (Fin c)) eqn:E;
                 [apply fgt_Fin in E; exfalso; lra | clear E]
             end.
      repeat case_bool_decide; reflexivity.
    + repeat case_bool_decide; reflexivity.
  - intros Hgt. unfold _determine_severity.
    destruct deviation as [q| | |]; try discriminate.
    + apply fgt_Fin in Hgt.
      repeat match goal with
             | |- context [fgt (Fin q) (Fin ?c)] =>
                 let E := fresh "E" in
                 destruct (fgt (Fin q) (Fin c)) eqn:E;
                 [clear E | apply fgt_Fin_false in E; exfalso; lra]
             end.
      repeat case_bool_decide; reflexivity.
    + repeat case_bool_decide; reflexivity.
  - unfold _determine_severity. repeat case_bool_decide; reflexivity.
Qed.

End severity_more.


(** ** The extraction of forecasts, and [generate_forecast] *)

Section extraction_more.
Context {ext : Externals}.

Lemma extract_points_empty (df : DataFrame) (model_name : string)
    (acc : list ForecastPoint) :
  df_len df = 0 → extract_points model_name acc (iterrows df) = Ok acc.
Proof.
  intros Hlen. rewrite <- length_iterrows in Hlen.
  destruct (iterrows df); [reflexivity | discriminate].
Qed.

Lemma extract_points_missing (df : DataFrame) (model_name : string)
    (acc : list ForecastPoint) :
  df_len df ≠ 0 → df_num df !! model_name = None →
  extract_points model_name acc (iterrows df) = Raise (KeyError model_name).
Proof.
  intros Hlen Hnone. rewrite <- length_iterrows in Hlen.
  destruct (iterrows df) as [|row rows] eqn:Hrows; [contradiction|].
  assert (iterrows df !! 0 = Some row) as Hrow by (rewrite Hrows; reflexivity).
  apply lookup_iterrows in Hrow as [_ Hnum].
  cbn [extract_points]. unfold row_getitem. rewrite Hnum, Hnone. reflexivity.
Qed.

Lemma extract_intervals_runs (df : DataFrame) (model_name : string)
    (levels : list Z) (ci : gmap string (list pyfloat)) :
  Forall (level_has_lower df model_name) levels →
  ∃ ci', extract_intervals df model_name ci levels = Ok ci' ∧
    (∀ level uppers lowers, level ∈ levels →
       df_num df !! (model_name +:+ "-hi-" +:+ pretty level) = Some uppers →
       df_num df !! (model_name +:+ "-lo-" +:+ pretty level) = Some lowers →
       ci' !! ("upper_" +:+ pretty level) = Some uppers ∧
       ci' !! ("lower_" +:+ pretty level) = Some lowers) ∧
    (∀ key col, ci' !! key = Some col →
       ci !! key = Some col ∨
       ∃ level, level ∈ levels ∧
         ((key = "upper_" +:+ pretty level ∧
           df_num df !! (model_name +:+ "-hi-" +:+ pretty level) = Some col) ∨
          (key = "lower_" +:+ pretty level ∧
           is_Some (df_num df !! (model_name +:+ "-hi-" +:+ pretty level)) ∧
           df_num df !! (model_name +:+ "-lo-" +:+ pretty level) = Some col))).
Proof.
  revert ci. induction levels as [|l levels IH]; intros ci Hall.
  - exists ci. split; [reflexivity|]. split; [|eauto].
    intros level ? ? Hin. inversion Hin.
  - inversion Hall as [|? ? Hl Hrest]; subst.
    cbn [extract_intervals]. case_bool_decide as Hdom.
    + apply elem_of_dom in Hdom. pose proof Hdom as Hhi.
      apply Hl in Hdom. destruct Hhi as [us Hus], Hdom as [ls Hls].
      unfold df_getitem. rewrite Hus, Hls. cbn [mbind result_bind].
      destruct (IH (<["lower_" +:+ pretty l := ls]>
                      (<["upper_" +:+ pretty l := us]> ci)) Hrest)
        as (ci' & Hrun & Hset & Hkeys).
      exists ci'. split; [exact Hrun|]. split.
      * intros level uppers lowers Hin Hu Hlo.
        destruct (decide (level ∈ levels)) as [Hin'|Hnin]; [eauto|].
        apply elem_of_cons in Hin as [->|Hin]; [|contradiction].
        assert (uppers = us) by congruence. assert (lowers = ls) by congruence.
        subst.
        assert (∀ key, (∀ level, level ∈ levels →
                          key ≠ "upper_" +:+ pretty level ∧
                          key ≠ "lower_" +:+ pretty level) →
                       ∀ col, <["lower_" +:+ pretty l := ls]>
                                (<["upper_" +:+ pretty l := us]> ci) !! key
                              = Some col → ci' !! key = Some col) as Hkeep.
        { clear -Hrest Hrun. revert Hrun.
          generalize (<["lower_" +:+ pretty l := ls]>
                        (<["upper_" +:+ pretty l := us]> ci)).
          induction levels as [|l' levels IH']; intros c Hrun key Hkey col Hc.
          - injection Hrun as <-. exact Hc.
          - inversion Hrest as [|? ? Hl' Hrest']; subst.
            cbn [extract_intervals] in Hrun. case_bool_decide as Hdom'.
            + apply elem_of_dom in Hdom'. pose proof Hdom' as Hhi'.
              apply Hl' in Hdom'. destruct Hhi' as [us' Hus'], Hdom' as [ls' Hls'].
              unfold df_getitem in Hrun. rewrite Hus', Hls' in Hrun.
              cbn [mbind result_bind] in Hrun.
              eapply (IH' Hrest' _ Hrun).
              * intros level Hin. apply Hkey. right. exact Hin.
              * destruct (Hkey l') as [Hu Hlo]; [left|].
                rewrite !lookup_insert_ne by congruence. exact Hc.
            + eapply (IH' Hrest' _ Hrun); [|exact Hc].
              intros level Hin. apply Hkey. right. exact Hin. }
        split; apply Hkeep.
        -- intros level Hlev. split; [|apply upper_lower_key_ne].
           intros Heq. apply upper_key_inj in Heq. congruence.
        -- rewrite lookup_insert_ne by (apply not_eq_sym, upper_lower_key_ne).
           apply lookup_insert_eq.
        -- intros level Hlev. split; [apply not_eq_sym, upper_lower_key_ne|].
           intros Heq. apply lower_key_inj in Heq. congruence.
        -- apply lookup_insert_eq.
      * intros key col Hc. destruct (Hkeys key col Hc) as [Hold|(level & Hin & Hk)].
        -- destruct (decide (key = "lower_" +:+ pretty l)) as [->|Hne1].
           { rewrite lookup_insert_eq in Hold. injection Hold as <-.
             right. exists l. split; [left|]. right. eauto. }
           rewrite lookup_insert_ne in Hold by congruence.
           destruct (decide (key = "upper_" +:+ pretty l)) as [->|Hne2].
           { rewrite lookup_insert_eq in Hold. injection Hold as <-.
             right. exists l. split; [left|]. left. eauto. }
           rewrite lookup_insert_ne in Hold by congruence. left. exact Hold.
        -- right. exists level. split; [right; exact Hin | exact Hk].
    + destruct (IH ci Hrest) as (ci' & Hrun & Hset & Hkeys).
      exists ci'. split; [exact Hrun|]. split.
      * intros level uppers lowers Hin Hu Hlo.
        apply elem_of_cons in Hin as [->|Hin]; [|eauto].
        exfalso. apply Hdom. apply elem_of_dom. eauto.
      * intros key col Hc. destruct (Hkeys key col Hc) as [Hold|(level & Hin & Hk)];
          [left; exact Hold|].
        right. exists level. split; [right; exact Hin | exact Hk].
Qed.

Lemma extract_intervals_raises (df : DataFrame) (model_name : string)
    (before after : list Z) (level : Z) (ci : gmap string (list pyfloat)) :
  Forall (level_has_lower df model_name) before →
  is_Some (df_num df !! (model_name +:+ "-hi-" +:+ pretty level)) →
  df_num df !! (model_name +:+ "-lo-" +:+ pretty level) = None →
  extract_intervals df model_name ci (before ++ level :: after)
  = Raise (KeyError (model_name +:+ "-lo-" +:+ pretty level)).
Proof.
  intros Hbefore [us Hus] Hlo. revert ci.
  induction Hbefore as [|l before Hl _ IH]; intros ci.
  - cbn [app extract_intervals].
    rewrite bool_decide_eq_true_2 by (apply elem_of_dom; eauto).
    unfold df_getitem. rewrite Hus, Hlo. reflexivity.
  - cbn [app extract_intervals]. case_bool_decide as Hdom; [|apply IH].
    apply elem_of_dom in Hdom. pose proof Hdom as Hhi.
    apply Hl in Hdom. destruct Hhi as [us' Hus'], Hdom as [ls' Hls'].
    unfold df_getitem. rewrite Hus', Hls'. cbn [mbind result_bind]. apply IH.
Qed.

Lemma Forall_or_first {A} (P : A → Prop) `{!∀ x, Decision (P x)} (l : list A) :
  Forall P l ∨ ∃ before x after, l = before ++ x :: after ∧ Forall P before ∧ ¬ P x.
Proof.
  induction l as [|x l IH]; [left; constructor|].
  destruct (decide (P x)) as [Hx|Hx].
  - destruct IH as [Hall|(before & y & after & -> & Hb & Hy)].
    + left. constructor; assumption.
    + right. exists (x :: before), y, after. split; [reflexivity|].
      split; [constructor; assumption | exact Hy].
  - right. exists [], x, l. split; [reflexivity|]. split; [constructor | exact Hx].
Qed.

(** X16.  On a frame whose columns have one cell per row, the extraction
    succeeds exactly when the frame has no row or has the column of the
    model, and every requested level that has its upper column has its
    lower column.  With a row and without the column of the model it fails
    with the [KeyError] of the model name; otherwise the first requested
    level with the upper and without the lower column fails it with the
    [KeyError] of that lower column. *)
Theorem _extract_forecast_data_succeeds_iff (forecasts_df : DataFrame)
    (model_name : string) (confidence_levels : list Z) :
  df_rectangular forecasts_df →
  ((∃ r, _extract_forecast_data forecasts_df model_name confidence_levels = Ok r)
   ↔ (df_len forecasts_df = 0 ∨ is_Some (df_num forecasts_df !! model_name)) ∧
     Forall (level_has_lower forecasts_df model_name) confidence_levels) ∧
  (df_len forecasts_df ≠ 0 → df_num forecasts_df !! model_name = None →
   _extract_forecast_data forecasts_df model_name confidence_levels
   = Raise (KeyError model_name)) ∧
  ((df_len forecasts_df = 0 ∨ is_Some (df_num forecasts_df !! model_name)) →
   ∀ before level after,
     confidence_levels = before ++ level :: after →
     Forall (level_has_lower forecasts_df model_name) before →
     ¬ level_has_lower forecasts_df model_name level →
     _extract_forecast_data forecasts_df model_name confidence_levels
     = Raise (KeyError (model_name +:+ "-lo-" +:+ pretty level))).
Proof.
  intros Hrect.
  assert (df_len forecasts_df = 0 ∨ is_Some (df_num forecasts_df !! model_name) →
          ∃ pts, extract_points model_name [] (iterrows forecasts_df) = Ok pts)
    as Hpoints.
  { intros [Hzero|[col Hcol]].
    - rewrite extract_points_empty by exact Hzero. eauto.
    - rewrite (extract_points_Ok model_name _ col []); [eauto|].
      apply iterrows_column; [exact Hcol|]. apply (Hrect _ _ Hcol). }
  assert (∀ before level after,
            confidence_levels = before ++ level :: after →
            Forall (level_has_lower forecasts_df model_name) before →
            ¬ level_has_lower forecasts_df model_name level →
            extract_intervals forecasts_df model_name ∅ confidence_levels
            = Raise (KeyError (model_name +:+ "-lo-" +:+ pretty level)))
    as Hraise.
  { intros before level after -> Hbefore Hlevel.
    unfold level_has_lower in Hlevel.
    destruct (df_num forecasts_df !! (model_name +:+ "-hi-" +:+ pretty level))
      as [us|] eqn:Hus; [|exfalso; apply Hlevel; intros [? [=]]].
    destruct (df_num forecasts_df !! (model_name +:+ "-lo-" +:+ pretty level))
      as [ls|] eqn:Hls; [exfalso; apply Hlevel; eauto|].
    apply extract_intervals_raises; [exact Hbefore | rewrite Hus; eauto | exact Hls]. }
  unfold _extract_forecast_data. split; [|split].
  - split.
    + intros [r Hr].
      destruct (decide (df_len forecasts_df = 0)) as [Hzero|Hnz].
      * split; [left; exact Hzero|].
        destruct (Forall_or_first (level_has_lower forecasts_df model_name)
                    confidence_levels) as [Hall|(b & l & a & Heq & Hb & Hl)];
          [exact Hall|].
        rewrite extract_points_empty in Hr by exact Hzero.
        cbn [mbind result_bind] in Hr.
        rewrite (Hraise b l a Heq Hb Hl) in Hr. discriminate.
      * destruct (df_num forecasts_df !! model_name) as [col|] eqn:Hcol.
        2:{ rewrite extract_points_missing in Hr by assumption. discriminate. }
        split; [right; eauto|].
        destruct (Forall_or_first (level_has_lower forecasts_df model_name)
                    confidence_levels) as [Hall|(b & l & a & Heq & Hb & Hl)];
          [exact Hall|].
        destruct Hpoints as [pts Hpts]; [right; eauto|].
        rewrite Hpts in Hr. cbn [mbind result_bind] in Hr.
        rewrite (Hraise b l a Heq Hb Hl) in Hr. discriminate.
    + intros [Hmodel Hall]. destruct (Hpoints Hmodel) as [pts ->].
      destruct (extract_intervals_runs forecasts_df model_name confidence_levels
                  ∅ Hall) as (ci & -> & _).
      cbn [mbind result_bind]. eauto.
  - intros Hnz Hnone. rewrite extract_points_missing by assumption. reflexivity.
  - intros Hmodel before level after Heq Hb Hl.
    destruct (Hpoints Hmodel) as [pts ->]. cbn [mbind result_bind].
    rewrite (Hraise before level after Heq Hb Hl). reflexivity.
Qed.

(** X17.  A successful extraction returns one point per row of the frame, and
    a mapping that holds nothing but the keys [upper_L] and [lower_L] of
    requested levels [L] whose upper column is in the frame, each with its
    column; with no level requested the mapping is empty. *)
Theorem _extract_forecast_data_keys (forecasts_df : DataFrame)
    (model_name : string) (confidence_levels : list Z)
    (forecast_points : list ForecastPoint)
    (confidence_intervals : gmap string (list pyfloat)) :
  _extract_forecast_data forecasts_df model_name confidence_levels
    = Ok (forecast_points, confidence_intervals) →
  length forecast_points = df_len forecasts_df ∧
  (confidence_levels = [] → confidence_intervals = ∅) ∧
  ∀ key col, confidence_intervals !! key = Some col →
    ∃ level, level ∈ confidence_levels ∧
      is_Some (df_num forecasts_df !! (model_name +:+ "-hi-" +:+ pretty level)) ∧
      ((key = "upper_" +:+ pretty level ∧
        df_num forecasts_df !! (model_name +:+ "-hi-" +:+ pretty level) = Some col) ∨
       (key = "lower_" +:+ pretty level ∧
        df_num forecasts_df !! (model_name +:+ "-lo-" +:+ pretty level) = Some col)).
Proof.
  unfold _extract_forecast_data. intros Hrun.
  destruct (extract_points model_name [] (iterrows forecasts_df)) as [pts|e] eqn:Hpts;
    [|discriminate].
  cbn [mbind result_bind] in Hrun.
  destruct (extract_intervals forecasts_df model_name ∅ confidence_levels)
    as [ci|e] eqn:Hci; [|discriminate].
  injection Hrun as <- <-.
  assert (Forall (level_has_lower forecasts_df model_name) confidence_levels)
    as Hall.
  { destruct (Forall_or_first (level_has_lower forecasts_df model_name)
                confidence_levels) as [Hall|(b & l & a & -> & Hb & Hl)];
      [exact Hall|].
    unfold level_has_lower in Hl.
    destruct (df_num forecasts_df !! (model_name +:+ "-hi-" +:+ pretty l))
      as [us|] eqn:Hus; [|exfalso; apply Hl; intros [? [=]]].
    destruct (df_num forecasts_df !! (model_name +:+ "-lo-" +:+ pretty l))
      as [ls|] eqn:Hls; [exfalso; apply Hl; eauto|].
    rewrite (extract_intervals_raises _ _ b a l ∅ Hb) in Hci;
      [discriminate | rewrite Hus; eauto | exact Hls]. }
  destruct (extract_intervals_runs forecasts_df model_name confidence_levels ∅ Hall)
    as (ci' & Hrun' & _ & Hkeys).
  assert (ci' = ci) by congruence. subst ci'.
  split; [|split].
  - clear -Hpts. rewrite <- length_iterrows.
    assert (∀ rows acc pts, extract_points model_name acc rows = Ok pts →
                            length pts = length acc + length rows) as Hlen.
    { induction rows as [|row rows IH]; intros acc pts' Hrun.
      - injection Hrun as <-. simpl. lia.
      - cbn [extract_points] in Hrun. destruct (row_getitem row model_name);
          [|discriminate]. cbn [mbind result_bind] in Hrun.
        apply IH in Hrun. rewrite length_app in Hrun. simpl in *. lia. }
    apply Hlen in Hpts. exact Hpts.
  - intros ->. injection Hci as <-. reflexivity.
  - intros key col Hc. destruct (Hkeys key col Hc) as [Hold|(level & Hin & Hk)].
    + rewrite lookup_empty in Hold. discriminate.
    + exists level. split; [exact Hin|].
      destruct Hk as [[-> Hu]|(-> & Hhi & Hlo)]; (split; [eauto|]); eauto.
Qed.
End extraction_more.

Lemma _extract_forecast_data_succeeds_iff_witness :
  _extract_forecast_data (ext := Iso.externals) upper_only_frame "AutoETS"
    [95]%Z
  = Raise (KeyError "AutoETS-lo-95").
Proof.
  destruct (_extract_forecast_data_succeeds_iff (ext := Iso.externals)
              upper_only_frame "AutoETS" [95]%Z) as (_ & _ & Hraise).
  - apply (bool_decide_unpack _). vm_compute. exact I.
  - apply (Hraise (or_intror (mk_is_Some _ _ eq_refl)) [] 95%Z []).
    + reflexivity.
    + constructor.
    + unfold level_has_lower. intros Hlower.
      destruct Hlower as [col Hcol]; [eexists; vm_compute; reflexivity|].
      vm_compute in Hcol. discriminate.
Defined.

Lemma _extract_forecast_data_keys_witness :
  ∃ forecast_points confidence_intervals,
    _extract_forecast_data (ext := Iso.externals) forecast_frame "AutoETS"
      [95; 80]%Z = Ok (forecast_points, confidence_intervals) ∧
    length forecast_points = 2 ∧
    ∀ key, is_Some (confidence_intervals !! key) →
           key = "upper_95" ∨ key = "lower_95".
Proof.
  destruct (_extract_forecast_data (ext := Iso.externals) forecast_frame
              "AutoETS" [95; 80]%Z) as [[pts ci]|e] eqn:Hrun;
    [|vm_compute in Hrun; discriminate].
  destruct (_extract_forecast_data_keys (ext := Iso.externals) forecast_frame
              "AutoETS" [95; 80]%Z pts ci Hrun) as (Hlen & _ & Hkeys).
  exists pts, ci. split; [reflexivity|]. split; [exact Hlen|].
  intros key [col Hcol].
  destruct (Hkeys key col Hcol) as (level & Hin & Hhi & Hkey).
  apply elem_of_cons in Hin as [->|Hin].
  - destruct Hkey as [[-> _]|[-> _]]; [left | right]; reflexivity.
  - apply list_elem_of_singleton in Hin as ->.
    destruct Hhi as [c Hc]. vm_compute in Hc. discriminate.
Defined.

Section forecast_more.
Context {ext : Externals} {fc : Forecaster}.

Lemma validate_data_raises (data : list DataPoint) (e : exn) :
  validate_data data = Raise e → ∃ msg, e = ValueError msg.
Proof.
  unfold validate_data. destruct (length data <? 2); [intros [= <-]; eauto|].
  destruct (check_values_total data) as [->|[msg ->]];
    [|intros [= <-]; eauto].
  cbn [mbind result_bind].
  destruct (parse_dates data) as [err|ts]; [intros [= <-]; eauto|].
  cbn [mbind result_bind]. case_bool_decide; [intros [= <-]; eauto|discriminate].
Qed.

Lemma validate_data_prepare (data : list DataPoint) (unique_id : string) :
  validate_data data = Ok () → ∃ df, prepare_dataframe data unique_id = Ok df.
Proof.
  intros Hval. destruct (validate_data_Ok_inv _ Hval) as (Hlen & _ & ts & Hp).
  unfold prepare_dataframe. rewrite Hp.
  destruct data as [|p0 rest]; [simpl in Hlen; lia|]. eauto.
Qed.

Lemma generate_forecast_eq (request : ForecastRequest)
    (start_time end_time : pyfloat) (df : DataFrame) :
  validate_data (forecast_data request) = Ok () →
  prepare_dataframe (forecast_data request) "series_1" = Ok df →
  generate_forecast request start_time end_time
  = (forecasts_df ←
       sf_forecast
         (_select_model (model request) (forecast_season_length request df)).1
         (infer_frequency df) df (horizon request) (confidenceLevels request);
     r ← _extract_forecast_data forecasts_df
           (_select_model (model request) (forecast_season_length request df)).2
           (confidenceLevels request);
     Ok {| forecast := r.1;
           confidenceIntervals := r.2;
           forecast_modelUsed :=
             (_select_model (model request)
                (forecast_season_length request df)).2;
           metrics := {| aic := None; bic := None; mape := None;
                         computation_time_ms :=
                           fmul (fsub end_time start_time) (Fin 1000) |} |}).
Proof.
  intros Hval Hprep. unfold generate_forecast. rewrite Hval, Hprep.
  cbn [mbind result_bind].
  change (match forecast_seasonLength request with
          | Some s => s
          | None => auto_detect_season_length df (infer_frequency df)
          end) with (forecast_season_length request df).
  destruct (_select_model (model request) (forecast_season_length request df))
    as [m name]. cbn [fst snd].
  destruct (sf_forecast m (infer_frequency df) df (horizon request)
              (confidenceLevels request)) as [out|e]; [|reflexivity].
  cbn [mbind result_bind].
  destruct (_extract_forecast_data out name (confidenceLevels request))
    as [[pts ci]|e]; reflexivity.
Qed.

(** X18.  The failures of [generate_forecast]: an error of the validator is
    the error of the call, whatever the forecaster; on valid data the
    frame is prepared, an exception of the fit is the exception of the
    call, and a frame of forecasts with a row and without the column of
    the selected model ends the call with the [KeyError] of the model
    name. *)
Theorem generate_forecast_failures (request : ForecastRequest)
    (start_time end_time : pyfloat) :
  (∀ e, validate_data (forecast_data request) = Raise e →
        generate_forecast request start_time end_time = Raise e) ∧
  (validate_data (forecast_data request) = Ok () →
   ∃ df, prepare_dataframe (forecast_data request) "series_1" = Ok df ∧
     (∀ e, sf_forecast
             (_select_model (model request)
                (forecast_season_length request df)).1
             (infer_frequency df) df (horizon request)
             (confidenceLevels request) = Raise e →
           generate_forecast request start_time end_time = Raise e) ∧
     (∀ forecasts_df,
        sf_forecast
          (_select_model (model request)
             (forecast_season_length request df)).1
          (infer_frequency df) df (horizon request)
          (confidenceLevels request) = Ok forecasts_df →
        df_len forecasts_df ≠ 0 →
        df_num forecasts_df
          !! (_select_model (model request)
                (forecast_season_length request df)).2 = None →
        generate_forecast request start_time end_time
        = Raise (KeyError (_select_model (model request)
                             (forecast_season_length request df)).2))).
Proof.
  split.
  - intros e He. unfold generate_forecast. rewrite He. reflexivity.
  - intros Hval. destruct (validate_data_prepare _ "series_1" Hval) as [df Hprep].
    exists df. split; [exact Hprep|].
    rewrite (generate_forecast_eq _ _ _ _ Hval Hprep). split.
    + intros e ->. reflexivity.
    + intros out -> Hlen Hnone. cbn [mbind result_bind].
      unfold _extract_forecast_data.
      rewrite extract_points_missing by assumption. reflexivity.
Qed.

(** X19.  On valid data, when the fit returns a frame with one row per period
    of the horizon, the column of the selected model and both interval
    columns of every requested level, [generate_forecast] returns a
    response: the model named is one of the three, there is one forecast
    point per period with the dates of the frame and the values of the
    column of the model, every requested level has its [upper_L] and
    [lower_L] entries, the columns of the frame, as long as the forecast,
    the mapping has no other key, the three quality metrics are absent and
    the time is the difference of the two clock readings in
    milliseconds. *)
Theorem generate_forecast_complete (request : ForecastRequest)
    (start_time end_time : pyfloat) (df forecasts_df : DataFrame) :
  validate_data (forecast_data request) = Ok () →
  prepare_dataframe (forecast_data request) "series_1" = Ok df →
  sf_forecast
    (_select_model (model request) (forecast_season_length request df)).1
    (infer_frequency df) df (horizon request) (confidenceLevels request)
    = Ok forecasts_df →
  forecast_frame_complete
    (_select_model (model request) (forecast_season_length request df)).2
    (horizon request) (confidenceLevels request) forecasts_df →
  ∃ resp,
    generate_forecast request start_time end_time = Ok resp ∧
    forecast_modelUsed resp ∈ ["AutoARIMA"; "AutoETS"; "AutoTheta"] ∧
    length (forecast resp) = Z.to_nat (horizon request) ∧
    forecast_date <$> forecast resp = strftime_ymd <$> df_ds forecasts_df ∧
    df_num forecasts_df !! forecast_modelUsed resp
      = Some (forecast_value <$> forecast resp) ∧
    (∀ level, level ∈ confidenceLevels request →
       ∃ uppers lowers,
         confidenceIntervals resp !! ("upper_" +:+ pretty level) = Some uppers ∧
         confidenceIntervals resp !! ("lower_" +:+ pretty level) = Some lowers ∧
         df_num forecasts_df
           !! (forecast_modelUsed resp +:+ "-hi-" +:+ pretty level)
           = Some uppers ∧
         df_num forecasts_df
           !! (forecast_modelUsed resp +:+ "-lo-" +:+ pretty level)
           = Some lowers ∧
         length uppers = length (forecast resp) ∧
         length lowers = length (forecast resp)) ∧
    (∀ key, is_Some (confidenceIntervals resp !! key) →
       ∃ level, level ∈ confidenceLevels request ∧
         (key = "upper_" +:+ pretty level ∨ key = "lower_" +:+ pretty level)) ∧
    aic (metrics resp) = None ∧ bic (metrics resp) = None ∧
    mape (metrics resp) = None ∧
    computation_time_ms (metrics resp)
      = fmul (fsub end_time start_time) (Fin 1000).
Proof.
  intros Hval Hprep Hfit (Hrect & Hlen & [col Hcol] & Hlevels).
  rewrite (generate_forecast_eq _ _ _ _ Hval Hprep), Hfit.
  cbn [mbind result_bind].
  set (name := (_select_model (model request)
                  (forecast_season_length request df)).2) in *.
  unfold _extract_forecast_data.
  pose proof (Hrect _ _ Hcol) as Hcol_len. cbn beta in Hcol_len.
  rewrite (extract_points_Ok name _ col [])
    by (apply iterrows_column; assumption).
  cbn [mbind result_bind app].
  assert (Forall (level_has_lower forecasts_df name) (confidenceLevels request))
    as Hall.
  { eapply Forall_impl; [exact Hlevels|]. intros level [_ Hlo] _. exact Hlo. }
  destruct (extract_intervals_runs forecasts_df name (confidenceLevels request)
              ∅ Hall) as (ci & -> & Hset & Hkeys).
  cbn [mbind result_bind]. eexists. split; [reflexivity|].
  cbn [forecast confidenceIntervals forecast_modelUsed metrics aic bic mape
       computation_time_ms fst snd].
  assert (length (iterrows forecasts_df) = length col) as Hrows
    by (rewrite length_iterrows; symmetry; exact Hcol_len).
  split; [|split; [|split; [|split; [|split; [|split]]]]].
  - unfold name, _select_model.
    repeat (case_bool_decide; cbn [orb fst snd]); repeat constructor.
  - rewrite length_zip_with, Hrows, Nat.min_id, Hcol_len. exact Hlen.
  - apply list_eq. intros i. rewrite !list_lookup_fmap, lookup_zip_with.
    destruct (iterrows forecasts_df !! i) as [row|] eqn:Hrow.
    + pose proof (lookup_lt_Some _ _ _ Hrow) as Hi. rewrite Hrows in Hi.
      destruct (lookup_lt_is_Some_2 col i Hi) as [v Hv].
      apply lookup_iterrows in Hrow as [Hds _].
      cbn [mbind option_bind]. rewrite Hv, Hds. reflexivity.
    + apply lookup_ge_None in Hrow. rewrite length_iterrows in Hrow.
      unfold df_len in Hrow. apply lookup_ge_None in Hrow. rewrite Hrow.
      reflexivity.
  - rewrite Hcol. f_equal. apply list_eq. intros i.
    rewrite list_lookup_fmap, lookup_zip_with.
    destruct (col !! i) as [v|] eqn:Hv.
    + pose proof (lookup_lt_Some _ _ _ Hv) as Hi. rewrite <- Hrows in Hi.
      destruct (lookup_lt_is_Some_2 _ i Hi) as [row ->]. reflexivity.
    + destruct (iterrows forecasts_df !! i); reflexivity.
  - intros level Hin.
    rewrite Forall_forall in Hlevels.
    destruct (Hlevels level Hin) as [[us Hus] [ls Hls]].
    destruct (Hset level us ls Hin Hus Hls) as [Hu Hl].
    exists us, ls. rewrite length_zip_with, Hrows, Nat.min_id, Hcol_len.
    split; [exact Hu|]. split; [exact Hl|]. split; [exact Hus|].
    split; [exact Hls|]. split; [apply (Hrect _ _ Hus) | apply (Hrect _ _ Hls)].
  - intros key [c Hc]. destruct (Hkeys key c Hc) as [Hold|(level & Hin & Hk)].
    + rewrite lookup_empty in Hold. discriminate.
    + exists level. split; [exact Hin|]. destruct Hk as [[-> _]|[-> _]]; eauto.
  - repeat split.
Qed.
End forecast_more.

Lemma generate_forecast_complete_witness :
  ∃ resp,
    generate_forecast (ext := Iso.externals) (fc := fixed_forecaster)
      forecast_request (Fin 0) (Fin 1) = Ok resp ∧
    forecast_modelUsed resp = "AutoETS" ∧
    length (forecast resp) = 2 ∧
    is_Some (confidenceIntervals resp !! "upper_95") ∧
    is_Some (confidenceIntervals resp !! "lower_95").
Proof.
  destruct (prepare_dataframe (ext := Iso.externals) shuffled_series "series_1")
    as [df|e] eqn:Hprep; [|vm_compute in Hprep; discriminate].
  destruct (generate_forecast_complete (ext := Iso.externals)
              (fc := fixed_forecaster) forecast_request (Fin 0) (Fin 1)
              df forecast_frame)
    as (resp & Hrun & _ & Hlen & _ & _ & Hlevels & _).
  - vm_compute. reflexivity.
  - exact Hprep.
  - reflexivity.
  - split; [apply (bool_decide_unpack _); vm_compute; exact I|].
    split; [reflexivity|].
    split; [eexists; vm_compute; reflexivity|].
    repeat constructor; eexists; vm_compute; reflexivity.
  - exists resp. split; [exact Hrun|].
    destruct (Hlevels 95%Z) as (us & ls & Hu & Hl & _); [repeat constructor|].
    assert (forecast_modelUsed resp = "AutoETS") as Hname.
    { unfold generate_forecast in Hrun. cbn [forecast_data forecast_request] in Hrun.
      rewrite Hprep in Hrun. vm_compute in Hrun. injection Hrun as <-. reflexivity. }
    split; [exact Hname|]. split; [exact Hlen|]. split; eauto.
Defined.

(** ** The endpoints *)

Section routers_more.
Context {ext : Externals} {fc : Forecaster} {py : Builtins}.


(** X21.  The forecast endpoint answers 400 with the message of the validator
    when the data are refused; on valid data an exception of the fit is
    answered with 400 and its text when it is a [ValueError], with 500 and
    its text behind the prefix otherwise; it returns a response exactly
    when the service does. *)
Theorem generate_forecast_endpoint_statuses (request : ForecastRequest)
    (start_time end_time : pyfloat) :
  (∀ e, validate_data (forecast_data request) = Raise e →
     ∃ msg, e = ValueError msg ∧
            generate_forecast_endpoint request start_time end_time
            = HTTPException 400 msg) ∧
  (validate_data (forecast_data request) = Ok () →
   ∃ df, prepare_dataframe (forecast_data request) "series_1" = Ok df ∧
     ∀ e, sf_forecast
            (_select_model (model request)
               (forecast_season_length request df)).1
            (infer_frequency df) df (horizon request)
            (confidenceLevels request) = Raise e →
          generate_forecast_endpoint request start_time end_time
          = match e with
            | ValueError msg => HTTPException 400 msg
            | _ => HTTPException 500 ("Forecast generation failed: "
                                      +:+ str_exn e)
            end) ∧
  (∀ resp, generate_forecast_endpoint request start_time end_time = Returns resp
           ↔ generate_forecast request start_time end_time = Ok resp).
Proof.
  unfold generate_forecast_endpoint. split; [|split].
  - intros e He. destruct (validate_data_raises _ _ He) as [msg ->].
    exists msg. split; [reflexivity|].
    unfold generate_forecast. rewrite He. reflexivity.
  - intros Hval. destruct (validate_data_prepare _ "series_1" Hval) as [df Hprep].
    exists df. split; [exact Hprep|]. intros e He.
    rewrite (generate_forecast_eq _ _ _ _ Hval Hprep), He.
    destruct e; reflexivity.
  - intros resp.
    destruct (generate_forecast request start_time end_time) as [r|[msg|key|msg]];
      cbn [handle]; split; intros [=]; subst; reflexivity.
Qed.
End routers_more.

(** ** The conversion script *)

Section convertWeatherData_more.
Context {py : Builtins}.

Lemma convert_rows_complete (written : list (list (option string)))
    (rows : list (gmap string (option string))) :
  Forall row_complete rows →
  convert_rows written rows
  = Ok (written ++ (written_row <$>
          filter (λ row, has_value (csv_cell row "TMAX")) rows)).
Proof.
  intros Hall. revert written.
  induction Hall as [|row rows [[d Hd] [t Ht]] _ IH]; intros written.
  - cbn. rewrite app_nil_r. reflexivity.
  - cbn [convert_rows]. unfold csv_getitem. rewrite Hd, Ht.
    cbn [mbind result_bind]. rewrite filter_cons.
    assert (csv_cell row "TMAX" = t) as Hcell
      by (unfold csv_cell; rewrite Ht; reflexivity).
    rewrite Hcell. destruct (has_value t) eqn:Hv.
    + rewrite decide_True by exact I. rewrite IH, <- app_assoc.
      cbn [fmap list_fmap app]. unfold written_row at 2, csv_cell.
      rewrite Hd, Ht. reflexivity.
    + rewrite decide_False by (intros []). apply IH.
Qed.

Lemma convert_rows_incomplete (written : list (list (option string)))
    (before after : list (gmap string (option string)))
    (row : gmap string (option string)) :
  Forall row_complete before → ¬ row_complete row →
  convert_rows written (before ++ row :: after)
  = Raise (KeyError (if decide (is_Some (row !! "DATE")) then "TMAX"
                     else "DATE")).
Proof.
  intros Hbefore Hrow. revert written.
  induction Hbefore as [|r before [[d Hd] [t Ht]] _ IH]; intros written.
  - cbn [app convert_rows]. unfold csv_getitem.
    destruct (row !! "DATE") as [d|] eqn:Hd.
    + rewrite decide_True by eauto. cbn [mbind result_bind].
      destruct (row !! "TMAX") as [t|] eqn:Ht; [|reflexivity].
      exfalso. apply Hrow. split; eauto.
    + rewrite decide_False by (intros [? [=]]). reflexivity.
  - cbn [app convert_rows]. unfold csv_getitem. rewrite Hd, Ht.
    cbn [mbind result_bind]. destruct (has_value t); apply IH.
Qed.

(** X22.  When every row read has the fields [DATE] and [TMAX], the script
    writes the header and then, in order, one row [date, tmax, 1] for each
    row whose [TMAX] is neither missing nor empty nor blank.  After rows
    that have both fields, the first row without one ends the script with
    the [KeyError] of [DATE], or of [TMAX] when only that one is missing.
    Whatever is written is the header followed by at most one row per row
    read, each of three cells with a [TMAX] that is not blank and the
    denominator 1. *)
Theorem convertWeatherData_outcomes
    (rows : list (gmap string (option string))) :
  (Forall row_complete rows →
   convertWeatherData rows
   = Ok ([Some "date"; Some "numerator"; Some "denominator"]
         :: (written_row <$>
               filter (λ row, has_value (csv_cell row "TMAX")) rows))) ∧
  (∀ before row after,
     rows = before ++ row :: after →
     Forall row_complete before → ¬ row_complete row →
     convertWeatherData rows
     = Raise (KeyError (if decide (is_Some (row !! "DATE")) then "TMAX"
                        else "DATE"))) ∧
  (∀ written,
     convertWeatherData rows = Ok written →
     ∃ body,
       written = [Some "date"; Some "numerator"; Some "denominator"] :: body ∧
       length body ≤ length rows ∧
       Forall (λ cells, ∃ date tmax,
                 cells = [date; Some tmax; Some "1"] ∧
                 tmax ≠ "" ∧ str_strip tmax ≠ "") body).
Proof.
  unfold convertWeatherData. split; [|split].
  - intros Hall. rewrite (convert_rows_complete _ _ Hall). reflexivity.
  - intros before row after -> Hbefore Hrow.
    apply convert_rows_incomplete; assumption.
  - intros written Hrun.
    destruct (Forall_or_first row_complete rows)
      as [Hall|(before & row & after & -> & Hbefore & Hrow)].
    2:{ rewrite convert_rows_incomplete in Hrun by assumption. discriminate. }
    rewrite (convert_rows_complete _ _ Hall) in Hrun. injection Hrun as <-.
    eexists. split; [reflexivity|]. split.
    + rewrite length_fmap. apply length_filter.
    + apply Forall_fmap, Forall_forall. intros row Hin.
      apply list_elem_of_filter in Hin as [Hv _].
      unfold compose, written_row.
      destruct (csv_cell row "TMAX") as [tmax|] eqn:Ht; [|destruct Hv].
      exists (csv_cell row "DATE"), tmax. split; [reflexivity|].
      cbn [has_value] in Hv. apply Is_true_true in Hv.
      apply andb_true_iff in Hv as [H1 H2].
      apply negb_true_iff, bool_decide_eq_false in H1, H2. split; assumption.
Qed.
End convertWeatherData_more.

(** ** Sample runs *)

Example validate_data_one_point :
  validate_data (ext := Iso.externals) [jan_point 1 5]
  = Raise (ValueError "Need at least 2 data points").
Proof. reflexivity. Qed.

Example validate_data_nan :
  validate_data (ext := Iso.externals)
    [jan_point 1 5; {| date := "2024-01-02"; value := NaN |}]
  = Raise (ValueError "Invalid value at 2024-01-02: nan").
Proof. reflexivity. Qed.

Example validate_data_bad_date :
  validate_data (ext := Iso.externals)
    [jan_point 1 5; {| date := "2024-13-01"; value := Fin 6 |}]
  = Raise (ValueError
      "Invalid date format: Unknown datetime string format, unable to parse: 2024-13-01").
Proof. vm_compute. reflexivity. Qed.

Example validate_data_duplicate :
  validate_data (ext := Iso.externals) [jan_point 1 5; jan_point 1 6]
  = Raise (ValueError "Duplicate dates found in data").
Proof. vm_compute. reflexivity. Qed.

Example infer_frequency_samples :
  infer_frequency minute_frame = "T" ∧
  infer_frequency daily_frame = "D" ∧
  infer_frequency weekly_frame = "W".
Proof. repeat split; vm_compute; reflexivity. Qed.

(** A level with the upper column and without the lower one: the lower
    column is read and the [KeyError] goes to the caller. *)
Example _extract_forecast_data_upper_only :
  _extract_forecast_data (ext := Iso.externals) upper_only_frame "AutoETS" [95%Z]
  = Raise (KeyError "AutoETS-lo-95").
Proof. vm_compute. reflexivity. Qed.

Example detect_anomalies_outlier :
  ∃ resp,
    detect_anomalies (ext := Iso.externals) outlier_request (Fin 0) (Fin 1)
      = Ok resp ∧
    (λ a, (anomaly_date a, anomaly_value a, severity a)) <$> anomalies resp
      = [("2024-01-15", Fin 200, "medium")] ∧
    totalPoints resp = 30 ∧
    length <$> confidenceBands resp = Some 30.
Proof. eexists. split; [vm_compute; reflexivity|]. repeat split. Qed.
